(** * Chess companion: board tracking, position detection and analysis scheduling

    A shallow embedding of the pipeline of
    [src/chess/chess_companion_standalone.py] (class
    [ChessCompanionSimplified]): the cached board mask, the fast and the
    fallback position extraction, the position-change loop, the analysis
    scheduler with its busy flag, the commentary buffer and the on-demand
    tool path.

    The vision service, the analyzer, the capture device, PIL/OpenCV and
    python-chess are external collaborators.  Every call to one of them is
    modelled as an oracle: the environment record [Env] holds what the call
    answers (a value or a raised exception), and the call is logged in a
    trace so that statements can speak about which collaborators were
    invoked and with which arguments. *)

From stdpp Require Import gmap strings list fin_maps.
From Stdlib Require Import ZArith.

Local Open Scope Z_scope.
Local Open Scope string_scope.
Local Open Scope list_scope.

(** ** Python values and exceptions *)

(** The exception classes the handlers of the source tell apart.
    [BaseOnly] stands for a [BaseException] that is not an [Exception]
    ([asyncio.CancelledError], [KeyboardInterrupt]): [except Exception]
    lets it through, a bare [except:] and [finally] do not. *)
Inductive exn : Type :=
  | ValueError
  | TypeError
  | KeyError
  | OtherException
  | BaseOnly.

Definition is_Exception (e : exn) : bool :=
  match e with
  | BaseOnly => false
  | _ => true
  end.

(** Outcome of a call: it returns a value or raises. *)
Inductive res (A : Type) : Type :=
  | Ret (a : A)
  | Raise (e : exn).
Arguments Ret {A} a.
Arguments Raise {A} e.

(** A captured frame is never inspected by the pipeline itself, only
    handed to collaborators: it is identified by a number. *)
Inductive Frame : Type := FrameId (n : N).

(** A Python float that is only stored and passed on, kept as its
    64-bit pattern. *)
Inductive pyfloat : Type := Float64 (bits : Z).

(** The values found in the analysis dictionaries. *)
Inductive pyval : Type :=
  | VStr (s : string)
  | VImage (mime_type data : string).

(** One perspective's analysis: a dictionary with text and image entries
    ("formatted_for_gemini", "board_screenshot", "user_query", ...). *)
Abbreviation Analysis := (gmap string pyval).

(** The analyzer's answer: perspective name to analysis. *)
Abbreviation Analyses := (gmap string Analysis).

(** Truth value of a dictionary: empty is false. *)
Definition dict_truthy {V : Type} (d : gmap string V) : bool :=
  negb (bool_decide (d = ∅)).

(** Truth value of a string: empty is false. *)
Definition str_truthy (s : string) : bool :=
  negb (bool_decide (s = "")).

(** ** The commentary buffer ([_run_transcription_sync]) *)

(** [l[-k:]]: the last [k] elements, the whole list when it is shorter. *)
Definition py_last (k : nat) {A : Type} (l : list A) : list A :=
  drop (length l - k) l.

Record Alternative : Type := mkAlternative { transcript : string }.

Record SpeechResult : Type := mkSpeechResult {
  alternatives : list Alternative;
  is_final : bool
}.

Record Response : Type := mkResponse { results : list SpeechResult }.

(** Lines 887-890: append, then keep the last 10 lines. *)
Definition append_commentary (buffer : list string) (line : string)
  : list string :=
  let buffer := (buffer ++ [line])%list in
  if bool_decide (10 < length buffer)%nat then py_last 10 buffer else buffer.

Section Transcription.

(** The builtin [str.strip]. *)
Variable str_strip : string -> string.

(** The transcript a response contributes, if any: the first alternative
    of the first result, when the result is final and the transcript is
    not blank (lines 872-882). *)
Definition finalized_transcript (response : Response) : option string :=
  match results response with
  | [] => None
  | result :: _ =>
      match alternatives result with
      | [] => None
      | alt :: _ =>
          if is_final result && str_truthy (str_strip (transcript alt))
          then Some (transcript alt)
          else None
      end
  end.

(** The body of the [for response in responses] loop. *)
Definition process_response (buffer : list string) (response : Response)
  : list string :=
  match finalized_transcript response with
  | Some line => append_commentary buffer line
  | None => buffer
  end.

(** [_run_transcription_sync], on the responses the speech client
    yields, from the buffer [buffer]. *)
Definition _run_transcription_sync (buffer : list string)
    (responses : list Response) : list string :=
  fold_left process_response responses buffer.

(** The finalized lines of a stream of responses, in arrival order. *)
Definition finalized_lines (responses : list Response) : list string :=
  omap finalized_transcript responses.

End Transcription.

(** ** The companion's state *)

(** The cached mask, the dictionary built at lines 557-561: the bounding
    box in the 1024x1024 space, its confidence, the time of the update. *)
Record BoardMask : Type := mkBoardMask {
  bbox : Z * Z * Z * Z;
  confidence : pyfloat;
  timestamp : pyfloat
}.

(** The fields of [ChessCompanionSimplified] the pipeline reads or writes
    (lines 325-334, 344). *)
Record Companion : Type := mkCompanion {
  current_board : option string;
  current_analysis : option Analyses;
  analyzing : bool;
  commentary_buffer : list string;
  watching_mode : bool;
  current_board_mask : option BoardMask;
  debug_mode : bool
}.

Definition set_current_board (v : option string) (c : Companion) : Companion :=
  mkCompanion v (current_analysis c) (analyzing c) (commentary_buffer c)
    (watching_mode c) (current_board_mask c) (debug_mode c).

Definition set_current_analysis (v : option Analyses) (c : Companion)
  : Companion :=
  mkCompanion (current_board c) v (analyzing c) (commentary_buffer c)
    (watching_mode c) (current_board_mask c) (debug_mode c).

Definition set_analyzing (v : bool) (c : Companion) : Companion :=
  mkCompanion (current_board c) (current_analysis c) v (commentary_buffer c)
    (watching_mode c) (current_board_mask c) (debug_mode c).

Definition set_commentary_buffer (v : list string) (c : Companion)
  : Companion :=
  mkCompanion (current_board c) (current_analysis c) (analyzing c) v
    (watching_mode c) (current_board_mask c) (debug_mode c).

Definition set_watching_mode (v : bool) (c : Companion) : Companion :=
  mkCompanion (current_board c) (current_analysis c) (analyzing c)
    (commentary_buffer c) v (current_board_mask c) (debug_mode c).

Definition set_current_board_mask (v : option BoardMask) (c : Companion)
  : Companion :=
  mkCompanion (current_board c) (current_analysis c) (analyzing c)
    (commentary_buffer c) (watching_mode c) v (debug_mode c).

(** A coroutine handed to [asyncio.create_task] (line 690) and where it
    stands: not entered yet, suspended in the analyzer (line 702), or
    suspended in the push to the dialogue session (line 749, reached from
    line 714). *)
Inductive task : Type :=
  | Created (fen : string) (frame : Frame)
  | AwaitingAnalyzer
  | AwaitingSend.

(** One opaque detection of the vision service. *)
Inductive Prediction : Type := PredictionId (n : N).

(** The [result] dictionaries of [handle_tool_call] (lines 962-1004). *)
Inductive ToolResult : Type :=
  | AnalysisReady (analysis : pyval) (query perspective : string)
  | NoAnalysis
  | WatchingModeStarted
  | WatchingModeStopped
  | UnknownFunction (name : string).

(** Calls to external collaborators, as the trace records them, and the
    entry of the fallback detector (which line 646 announces). *)
Inductive event : Type :=
  | CapRead
  | SegmentBoard
  | ExtractBbox
  | DetectPieces (model_id : string)
  | PiecesToFen (width height : Z) (model_id : string)
  | FallbackEntered
  | ConsensusDetection (temp_path : string) (n min_consensus : Z)
  | AnalyzeBothPerspectives (fen : string) (frame : Frame)
      (commentary_context : list string)
  | SendClientContent (parts : list pyval)
  | ExtractBroadcastContext (frame : Frame)
  | DetermineQueryPerspective (user_query : string)
  | FormatForLiveModel (analysis : Analysis)
  | SendToolResponse (function_responses : list (string * ToolResult)).

(** The companion, the tasks of the event loop created by the companion
    and not finished, and the collaborator calls made so far (oldest
    first). *)
Record World : Type := mkWorld {
  self : Companion;
  tasks : list task;
  trace : list event
}.

(** ** A state and exception monad for the methods *)

Definition M (A : Type) : Type := World -> res A * World.

Definition ret {A : Type} (a : A) : M A := fun w => (Ret a, w).

Definition raise {A : Type} (e : exn) : M A := fun w => (Raise e, w).

Definition bind {A B : Type} (m : M A) (k : A -> M B) : M B :=
  fun w =>
    match m w with
    | (Ret a, w') => k a w'
    | (Raise e, w') => (Raise e, w')
    end.

Notation "x <- m ;; k" := (bind m (fun x => k))
  (at level 100, m at level 99, k at level 200, only parsing).
Notation "m ;;; k" := (bind m (fun _ => k))
  (at level 100, k at level 200, only parsing).

(** [try: body except Exception: handler]. *)
Definition try_except {A : Type} (body : M A) (handler : exn -> M A) : M A :=
  fun w =>
    match body w with
    | (Raise e, w') => if is_Exception e then handler e w' else (Raise e, w')
    | r => r
    end.

(** [try: body except: handler], the bare handler that catches all. *)
Definition try_except_all {A : Type} (body : M A) (handler : M A) : M A :=
  fun w =>
    match body w with
    | (Raise _, w') => handler w'
    | r => r
    end.

(** [try: body finally: cleanup]. *)
Definition try_finally {A : Type} (body : M A) (cleanup : M unit) : M A :=
  fun w =>
    match body w with
    | (r, w') =>
        match cleanup w' with
        | (Ret _, w'') => (r, w'')
        | (Raise e, w'') => (Raise e, w'')
        end
    end.

Definition get_self : M Companion := fun w => (Ret (self w), w).

Definition modify_self (f : Companion -> Companion) : M unit :=
  fun w => (Ret tt, mkWorld (f (self w)) (tasks w) (trace w)).

(** A logged call to a collaborator that answers [answer]. *)
Definition call {A : Type} (ev : event) (answer : res A) : M A :=
  fun w => (answer, mkWorld (self w) (tasks w) (trace w ++ [ev])%list).

(** [await] of a collaborator's coroutine: the call is made, and until
    its answer is back the other coroutines of the loop run; [others] is
    what they do to the world meanwhile. *)
Definition await {A : Type} (others : World -> World) (ev : event)
    (answer : res A) : M A :=
  fun w =>
    (answer, others (mkWorld (self w) (tasks w) (trace w ++ [ev])%list)).

(** A library call that is not logged (PIL, OpenCV, os, python-chess). *)
Definition lib {A : Type} (answer : res A) : M A := fun w => (answer, w).

(** [asyncio.create_task(self.analyze_new_position(fen, frame))]: the
    coroutine is queued on the loop; its body runs later. *)
Definition create_task (fen : string) (frame : Frame) : M unit :=
  fun w => (Ret tt, mkWorld (self w) (tasks w ++ [Created fen frame])%list
                      (trace w)).

(** [d[key]] on a dictionary. *)
Definition getitem {V : Type} (d : gmap string V) (key : string) : M V :=
  match d !! key with
  | Some v => ret v
  | None => raise KeyError
  end.

(** ** The collaborators' answers *)

(** [segment_board_direct]'s answer: the entry under "predictions", if the
    key is there. *)
Record SegmentationResult : Type := mkSegmentationResult {
  seg_predictions : option (list Prediction)
}.

(** [extract_bbox_from_segmentation]'s answer when it is not falsy. *)
Record BBoxInfo : Type := mkBBoxInfo {
  coords : Z * Z * Z * Z;
  bbox_confidence : pyfloat
}.

(** [detect_pieces_direct]'s answer when it is not falsy: the entry under
    "predictions", if the key is there. *)
Record PieceResult : Type := mkPieceResult {
  predictions : option (list Prediction)
}.

(** The consensus detector's answer: the entries under "piece_count" and
    "consensus_fen", where present. *)
Record ConsensusResult : Type := mkConsensusResult {
  piece_count : option Z;
  consensus_fen : option string
}.

(** What each collaborator answers during one invocation of a method. *)
Record Env : Type := mkEnv {
  (** [time.time()] *)
  time_now : pyfloat;
  (** [shared_cap.read()]: the frame, or [None] when [ret] is false *)
  cap_read : res (option Frame);
  (** lines 540-542: convert the screenshot and resize it to 1024x1024 *)
  to_1024 : res unit;
  (** lines 547-550: build the pipeline and segment the board *)
  segment_board_direct : res SegmentationResult;
  (** line 553: [None] for a falsy answer *)
  extract_bbox_from_segmentation : res (option BBoxInfo);
  (** lines 586-592: normalise the frame and crop it by the cached box;
      the answer is the crop's [size] *)
  crop_size : Z * Z * Z * Z -> res (Z * Z);
  (** line 599: resize the crop to 640x640; the answer is its [size] *)
  resize_640 : res (Z * Z);
  (** lines 604-607: [None] for a falsy answer *)
  detect_pieces_direct : res (option PieceResult);
  (** lines 619-624: the first component of the answer *)
  pieces_to_fen_from_dimensions : res string;
  (** lines 632-634: write the debug crop *)
  save_debug_crop : res unit;
  (** line 648: the temporary file's path *)
  save_frame_to_temp : res string;
  (** lines 650-655 *)
  consensus_piece_detection : res ConsensusResult;
  (** lines 660, 664 *)
  os_unlink : res unit;
  (** [chess.Board(fen)] *)
  chess_Board : string -> res unit;
  (** lines 702-706 *)
  analyze_both_perspectives : res Analyses;
  (** line 749 *)
  send_client_content : res unit;
  (** line 943 *)
  extract_broadcast_context : res string;
  (** line 944: the perspective's name *)
  determine_query_perspective : res string;
  (** line 959 *)
  format_for_live_model : Analysis -> res pyval
}.

(** The sentinel of an empty board. *)
Definition EMPTY_BOARD_FEN : string := "8/8/8/8/8/8/8/8".

Definition PIECE_MODEL_ID : string := "chess.comdetection/4".

Definition set_mask (v : option BoardMask) : M unit :=
  modify_self (set_current_board_mask v).

(** ** The board mask cache *)

(** [update_board_mask] (lines 527-576).  The [frame] argument is not
    used: a fresh screenshot is read. *)
Definition update_board_mask (env : Env) (frame : Frame) : M unit :=
  try_except
    (let start_time := time_now env in
     screenshot <- call CapRead (cap_read env);;
     match screenshot with
     | None => ret tt
     | Some _ =>
         lib (to_1024 env);;;
         segmentation_result <- call SegmentBoard (segment_board_direct env);;
         match seg_predictions segmentation_result with
         | Some (_ :: _) =>
             found <- call ExtractBbox (extract_bbox_from_segmentation env);;
             match found with
             | Some b =>
                 set_mask (Some (mkBoardMask (coords b) (bbox_confidence b)
                                   start_time))
             | None => set_mask None
             end
         | _ => set_mask None
         end
     end)
    (fun _ => set_mask None).

(** ** Position extraction *)

(** [_fallback_full_detection] (lines 644-675). *)
Definition _fallback_full_detection (env : Env) (frame : Frame)
  : M (option string) :=
  call FallbackEntered (Ret tt);;;
  try_except
    (temp_path <- lib (save_frame_to_temp env);;
     result <- call (ConsensusDetection temp_path 7 3)
                 (consensus_piece_detection env);;
     let count := default 0 (piece_count result) in
     if bool_decide (count < 2) then
       lib (os_unlink env);;;
       ret None
     else
       new_fen <- match consensus_fen result with
                  | Some f => ret f
                  | None => raise KeyError
                  end;;
       lib (os_unlink env);;;
       if bool_decide (new_fen = EMPTY_BOARD_FEN) then ret None
       else ret (Some new_fen))
    (fun _ => ret None).

(** [extract_fen_with_cached_mask] (lines 578-642). *)
Definition extract_fen_with_cached_mask (env : Env) (frame : Frame)
  : M (option string) :=
  try_except
    (c <- get_self;;
     match current_board_mask c with
     | None => _fallback_full_detection env frame
     | Some mask =>
         size <- lib (crop_size env (bbox mask));;
         if bool_decide (size.1 = 0) || bool_decide (size.2 = 0) then
           _fallback_full_detection env frame
         else
           size_640 <- lib (resize_640 env);;
           piece_result <- call (DetectPieces PIECE_MODEL_ID)
                             (detect_pieces_direct env);;
           match piece_result with
           | None => _fallback_full_detection env frame
           | Some piece_result =>
               let count := length (default [] (predictions piece_result)) in
               if bool_decide (count < 2)%nat then ret None
               else
                 fen <- call (PiecesToFen size_640.1 size_640.2 PIECE_MODEL_ID)
                          (pieces_to_fen_from_dimensions env);;
                 if bool_decide (fen = EMPTY_BOARD_FEN) then ret None
                 else
                   (if debug_mode c then lib (save_debug_crop env)
                    else ret tt);;;
                   ret (Some fen)
           end
     end)
    (fun _ => _fallback_full_detection env frame).

(** ** The position-change loop *)

(** [is_valid_fen] (lines 756-762). *)
Definition is_valid_fen (env : Env) (fen : string) : M bool :=
  fun w =>
    match chess_Board env fen with
    | Ret _ => (Ret true, w)
    | Raise ValueError | Raise TypeError => (Ret false, w)
    | Raise e => (Raise e, w)
    end.

(** [on_board_change] (lines 677-690).  The visualization (line 682)
    only prints and swallows its own errors. *)
Definition on_board_change (new_fen : string) (frame : Frame) : M unit :=
  modify_self (set_current_board (Some new_fen));;;
  c <- get_self;;
  if negb (analyzing c) then create_task new_fen frame else ret tt.

(** What the tracker does with an extracted position (lines 510-518). *)
Definition track_position (env : Env) (new_fen : option string)
    (frame : Frame) : M unit :=
  match new_fen with
  | None => ret tt
  | Some fen =>
      if str_truthy fen then
        valid <- is_valid_fen env fen;;
        if valid then
          c <- get_self;;
          if bool_decide (Some fen ≠ current_board c)
          then on_board_change fen frame
          else ret tt
        else ret tt
      else ret tt
  end.

(** One turn of the [while True] loop of [fast_fen_detection_loop]
    (lines 493-525); the sleeps are not modelled. *)
Definition fast_fen_detection_iteration (env : Env) : M unit :=
  try_except
    (c <- get_self;;
     match current_board_mask c with
     | None => ret tt
     | Some _ =>
         captured <- call CapRead (cap_read env);;
         match captured with
         | None => ret tt
         | Some frame =>
             new_fen <- extract_fen_with_cached_mask env frame;;
             track_position env new_fen frame
         end
     end)
    (fun _ => ret tt).

(** ** The analysis scheduler *)

(** The content parts [send_analysis_to_gemini] builds (lines 726-746):
    the text, then the screenshot when there is one.  A truthy screenshot
    that is not an image dictionary fails at its subscript. *)
Definition gemini_parts (analysis : Analysis) : res (list pyval) :=
  let analysis_text :=
    default (VStr "Analysis unavailable") (analysis !! "formatted_for_gemini") in
  match analysis !! "board_screenshot" with
  | Some (VImage mime_type data) => Ret [analysis_text; VImage mime_type data]
  | Some (VStr s) =>
      if str_truthy s then Raise TypeError else Ret [analysis_text]
  | None => Ret [analysis_text]
  end.

(** [send_analysis_to_gemini] (lines 722-753). *)
Definition send_analysis_to_gemini (env : Env) (analysis : Analysis) : M unit :=
  try_except
    (parts <- lib (gemini_parts analysis);;
     call (SendClientContent parts) (send_client_content env))
    (fun _ => ret tt).

(** [analyze_new_position] (lines 692-720), run without interruption. *)
Definition analyze_new_position (env : Env) (fen : string) (frame : Frame)
  : M unit :=
  c <- get_self;;
  if analyzing c then ret tt
  else
    modify_self (set_analyzing true);;;
    try_finally
      (try_except
         (c <- get_self;;
          analyses <- call (AnalyzeBothPerspectives fen frame
                              (commentary_buffer c))
                        (analyze_both_perspectives env);;
          modify_self (set_current_analysis (Some analyses));;;
          c <- get_self;;
          if watching_mode c then
            white <- getitem analyses "white";;
            send_analysis_to_gemini env white
          else ret tt)
         (fun _ => ret tt))
      (modify_self (set_analyzing false)).

(** ** The on-demand tool path *)

(** A function call of the dialogue session: [args] is [None] for a call
    made without arguments. *)
Record FunctionCall : Type := mkFunctionCall {
  fc_name : string;
  fc_args : option (gmap string string)
}.

(** Lines 940-948: the perspective inferred from a fresh frame, "white"
    when the capture fails or anything raises.  The coroutine is suspended
    at the two awaits of lines 943 and 944: [others_1] and [others_2] are
    what the other coroutines do during the first and the second. *)
Definition infer_perspective (others_1 others_2 : World -> World) (env : Env)
    (user_query : string) : M string :=
  try_except_all
    (captured <- call CapRead (cap_read env);;
     match captured with
     | Some frame =>
         await others_1 (ExtractBroadcastContext frame)
           (extract_broadcast_context env);;;
         await others_2 (DetermineQueryPerspective user_query)
           (determine_query_perspective env)
     | None => ret "white"
     end)
    (ret "white").

(** The perspective the inference answers: it never raises, and depends
    on the collaborators only. *)
Definition inferred_color (env : Env) : string :=
  match cap_read env with
  | Ret (Some _) =>
      match extract_broadcast_context env with
      | Ret _ =>
          match determine_query_perspective env with
          | Ret color => color
          | Raise _ => "white"
          end
      | Raise _ => "white"
      end
  | _ => "white"
  end.

(** [fc.args.get("query", ...)] (line 932), outside any [try]: without
    arguments it is [None.get], an [AttributeError]. *)
Definition query_of (fc : FunctionCall) : M string :=
  match fc_args fc with
  | Some args =>
      ret (default "Analyze the current chess position" (args !! "query"))
  | None => raise OtherException
  end.

(** The branch of [handle_tool_call] for the tool
    "analyze_current_position" (lines 932-988).  [self.current_analysis]
    is tested at line 936 and read again at line 951, after the awaits of
    the inference, during which the other coroutines may have replaced it
    ([others_1], [others_2]); [.get] on [None] is an [AttributeError]. *)
Definition analyze_current_position (others_1 others_2 : World -> World)
    (env : Env) (fc : FunctionCall) : M ToolResult :=
  user_query <- query_of fc;;
  c <- get_self;;
  match current_analysis c with
  | Some tested =>
      if dict_truthy tested then
        color <- infer_perspective others_1 others_2 env user_query;;
        c <- get_self;;
        match current_analysis c with
        | Some stored =>
            let analysis :=
              default (default ∅ (stored !! "white")) (stored !! color) in
            if dict_truthy analysis then
              let analysis := <["user_query" := VStr user_query]> analysis in
              formatted <- call (FormatForLiveModel analysis)
                             (format_for_live_model env analysis);;
              let analysis :=
                <["formatted_for_gemini" := formatted]> analysis in
              ret (AnalysisReady
                     (default (VStr "Analysis unavailable")
                        (analysis !! "formatted_for_gemini"))
                     user_query color)
            else ret NoAnalysis
        | None => raise OtherException
        end
      else ret NoAnalysis
  | None => ret NoAnalysis
  end.

(** The body of the loop of [handle_tool_call] for one function call
    (lines 929-1004), run with no other coroutine scheduled during the
    awaits of a position query. *)
Definition handle_function_call (env : Env) (fc : FunctionCall)
  : M ToolResult :=
  if bool_decide (fc_name fc = "analyze_current_position") then
    analyze_current_position id id env fc
  else if bool_decide (fc_name fc = "start_watching_mode") then
    modify_self (set_watching_mode true);;;
    ret WatchingModeStarted
  else if bool_decide (fc_name fc = "stop_watching_mode") then
    modify_self (set_watching_mode false);;;
    ret WatchingModeStopped
  else ret (UnknownFunction (fc_name fc)).

(** The loop of [handle_tool_call] (lines 926-1008): each function call
    comes with the answers the collaborators give while it is handled. *)
Fixpoint handle_function_calls (calls : list (Env * FunctionCall))
  : M (list (string * ToolResult)) :=
  match calls with
  | [] => ret []
  | (env, fc) :: calls =>
      result <- handle_function_call env fc;;
      function_responses <- handle_function_calls calls;;
      ret ((fc_name fc, result) :: function_responses)
  end.

(** [handle_tool_call] (lines 924-1022). *)
Definition handle_tool_call (send_tool_response : res unit)
    (calls : list (Env * FunctionCall)) : M unit :=
  function_responses <- handle_function_calls calls;;
  match function_responses with
  | [] => ret tt
  | _ => call (SendToolResponse function_responses) send_tool_response
  end.

(** ** Construction and startup *)

(** Lines 325-334 and 344: the fields after construction. *)
Definition initial_companion (debug_mode watching_mode : bool) : Companion :=
  mkCompanion None None false [] watching_mode None debug_mode.

(** Lines 339-341: the check of the vision credential;
    [os.getenv] is a lookup in the process environment. *)
Definition verify_api_key (environ : gmap string string) : res unit :=
  match environ !! "ROBOFLOW_API_KEY" with
  | Some key => if str_truthy key then Ret tt else Raise ValueError
  | None => Raise ValueError
  end.

(** [ChessCompanionSimplified.__init__] (lines 323-385).
    [build_collaborators] is the outcome of the construction steps after
    the check (debug directory, clients, engine pool, memory, speech). *)
Definition __init__ (environ : gmap string string)
    (build_collaborators : res unit) (debug_mode watching_mode : bool)
  : res Companion :=
  match verify_api_key environ with
  | Raise e => Raise e
  | Ret _ =>
      match build_collaborators with
      | Raise e => Raise e
      | Ret _ => Ret (initial_companion debug_mode watching_mode)
      end
  end.

(** How the program's entry point (lines 1127-1132) goes on after the
    construction: [asyncio.run(companion.run())] is reached only with a
    constructed companion. *)
Inductive startup : Type :=
  | ConstructionFailed (e : exn)
  | PipelineStarted (companion : Companion).

Definition main (environ : gmap string string) (build_collaborators : res unit)
    (debug no_watch : bool) : startup :=
  match __init__ environ build_collaborators debug (negb no_watch) with
  | Raise e => ConstructionFailed e
  | Ret companion => PipelineStarted companion
  end.

(** ** The event loop around the scheduler *)

(** The coroutines of the companion run on one asyncio loop: a coroutine
    runs alone from one [await] of a collaborator to the next, and other
    coroutines run while it is suspended.  An action is one such
    uninterrupted stretch. *)
Inductive action : Type :=
  (** the poller calls [on_board_change] (line 513) *)
  | BoardChange (new_fen : string) (frame : Frame)
  (** the loop enters the body of the [i]-th task (lines 694-702) *)
  | TaskStarts (i : nat)
  (** the analyzer answers the [i]-th task (lines 702-720) *)
  | AnalyzerAnswers (i : nat) (answer : res Analyses)
  (** the dialogue session answers the [i]-th task (lines 749-753, 720) *)
  | SendAnswers (i : nat) (answer : res unit)
  (** a finalized transcript line arrives (lines 887-890) *)
  | TranscriptArrives (line : string)
  (** the watching-mode tools (lines 993-1001) *)
  | ToolSetsWatching (b : bool)
  (** [update_board_mask] ends with this mask *)
  | MaskReplaced (mask : option BoardMask).

(** The task leaves [analyze_new_position] through [finally] (line 720). *)
Definition finish_task (i : nat) (c : Companion) (w : World) : World :=
  mkWorld (set_analyzing false c) (delete i (tasks w)) (trace w).

Definition step (a : action) (w : World) : option World :=
  match a with
  | BoardChange new_fen frame => Some (on_board_change new_fen frame w).2
  | TaskStarts i =>
      match tasks w !! i with
      | Some (Created fen frame) =>
          if analyzing (self w)
          then Some (mkWorld (self w) (delete i (tasks w)) (trace w))
          else Some (mkWorld (set_analyzing true (self w))
                       (<[i := AwaitingAnalyzer]> (tasks w))
                       (trace w ++ [AnalyzeBothPerspectives fen frame
                                      (commentary_buffer (self w))])%list)
      | _ => None
      end
  | AnalyzerAnswers i answer =>
      match tasks w !! i with
      | Some AwaitingAnalyzer =>
          match answer with
          | Raise _ => Some (finish_task i (self w) w)
          | Ret analyses =>
              let c := set_current_analysis (Some analyses) (self w) in
              if watching_mode c then
                match analyses !! "white" with
                | None => Some (finish_task i c w)
                | Some white =>
                    match gemini_parts white with
                    | Raise _ => Some (finish_task i c w)
                    | Ret parts =>
                        Some (mkWorld c (<[i := AwaitingSend]> (tasks w))
                                (trace w ++ [SendClientContent parts])%list)
                    end
                end
              else Some (finish_task i c w)
          end
      | _ => None
      end
  | SendAnswers i answer =>
      match tasks w !! i with
      | Some AwaitingSend => Some (finish_task i (self w) w)
      | _ => None
      end
  | TranscriptArrives line =>
      Some (mkWorld
              (set_commentary_buffer
                 (append_commentary (commentary_buffer (self w)) line) (self w))
              (tasks w) (trace w))
  | ToolSetsWatching b =>
      Some (mkWorld (set_watching_mode b (self w)) (tasks w) (trace w))
  | MaskReplaced mask =>
      Some (mkWorld (set_current_board_mask mask (self w)) (tasks w) (trace w))
  end.

(** A schedule: the actions in the order the loop runs them. *)
Fixpoint run (schedule : list action) (w : World) : option World :=
  match schedule with
  | [] => Some w
  | a :: schedule =>
      match step a w with
      | Some w' => run schedule w'
      | None => None
      end
  end.

(** The world right after construction. *)
Definition initial_world (debug_mode watching_mode : bool) : World :=
  mkWorld (initial_companion debug_mode watching_mode) [] [].

(** An analysis is in flight from the moment its task set the busy flag
    until the task leaves [analyze_new_position]. *)
Definition is_in_flight (t : task) : bool :=
  match t with
  | Created _ _ => false
  | AwaitingAnalyzer | AwaitingSend => true
  end.

Definition in_flight (w : World) : nat :=
  length (filter (fun t => is_in_flight t = true) (tasks w)).

(** The actions of one task, with the collaborators' answers of [env]. *)
Definition task_schedule (env : Env) (i : nat) : list action :=
  [TaskStarts i;
   AnalyzerAnswers i (analyze_both_perspectives env);
   SendAnswers i (send_client_content env)].

(** The calls to the analyzer in a trace. *)
Definition is_analyzer_call (ev : event) : bool :=
  match ev with
  | AnalyzeBothPerspectives _ _ _ => true
  | _ => false
  end.

(** The calls to the consensus detector in a trace. *)
Definition is_consensus_call (ev : event) : bool :=
  match ev with
  | ConsensusDetection _ _ _ => true
  | _ => false
  end.

Definition analyzer_calls (w : World) : list event :=
  filter (fun ev => is_analyzer_call ev = true) (trace w).

Definition consensus_calls (w : World) : list event :=
  filter (fun ev => is_consensus_call ev = true) (trace w).

Definition is_fallback_entry (ev : event) : bool :=
  match ev with
  | FallbackEntered => true
  | _ => false
  end.

(** How often the fallback detector was entered. *)
Definition fallback_entries (w : World) : nat :=
  length (filter (fun ev => is_fallback_entry ev = true) (trace w)).

(** The fast path gets as far as the piece detector, which answers
    [piece_result] (lines 581-611): there is a cached mask, the crop is
    not empty, and the resize and the detector return. *)
Definition fast_path_detects (env : Env) (w : World)
    (piece_result : PieceResult) : Prop :=
  exists mask size size_640,
    current_board_mask (self w) = Some mask
    /\ crop_size env (bbox mask) = Ret size
    /\ size.1 <> 0 /\ size.2 <> 0
    /\ resize_640 env = Ret size_640
    /\ detect_pieces_direct env = Ret (Some piece_result).

(** The fast path's detection is one that lines 614-628 turn down: fewer
    than 2 pieces, or a conversion to the empty-board sentinel. *)
Definition fast_path_rejected (env : Env) (w : World) : Prop :=
  exists piece_result,
    fast_path_detects env w piece_result
    /\ ((length (default [] (predictions piece_result)) < 2)%nat
        \/ pieces_to_fen_from_dimensions env = Ret EMPTY_BOARD_FEN).

(** What a task counts for among the analyses in flight. *)
Definition weight (t : task) : nat := if is_in_flight t then 1%nat else 0%nat.

(** The scheduler's invariant: the busy flag is up exactly while one
    analysis is in flight, and no second one ever is. *)
Definition scheduler_invariant (w : World) : Prop :=
  in_flight w = if analyzing (self w) then 1%nat else 0%nat.

(** ** Sample data *)

Definition START_FEN : string := "rnbqkbnr/pppppppp/8/8/8/8/PPPPPPPP/RNBQKBNR".

Definition sample_frame : Frame := FrameId 1.

Definition sample_mask : BoardMask :=
  mkBoardMask (212, 96, 812, 696) (Float64 4606281698874543309) (Float64 0).

Definition sample_analysis (text : string) : Analysis :=
  {[ "formatted_for_gemini" := VStr text ]}.

Definition sample_analyses : Analyses :=
  {[ "white" := sample_analysis "White is better";
     "black" := sample_analysis "Black is worse" ]}.

Definition pieces (n : nat) : PieceResult :=
  mkPieceResult (Some (map (fun i => PredictionId (N.of_nat i)) (seq 0 n))).

(** Collaborators that all answer, with the given capture, detections and
    analysis. *)
Definition sample_env (captured : res (option Frame))
    (detected : res (option PieceResult)) (fen : res string)
    (consensus : res ConsensusResult) (analysis : res Analyses) : Env :=
  {| time_now := Float64 4742290407621132288;
     cap_read := captured;
     to_1024 := Ret tt;
     segment_board_direct := Ret (mkSegmentationResult (Some [PredictionId 0]));
     extract_bbox_from_segmentation :=
       Ret (Some (mkBBoxInfo (200, 100, 800, 700) (Float64 4606281698874543309)));
     crop_size := fun '(x_min, y_min, x_max, y_max) =>
                    Ret (x_max - x_min, y_max - y_min);
     resize_640 := Ret (640, 640);
     detect_pieces_direct := detected;
     pieces_to_fen_from_dimensions := fen;
     save_debug_crop := Ret tt;
     save_frame_to_temp := Ret "/tmp/frame.png";
     consensus_piece_detection := consensus;
     os_unlink := Ret tt;
     chess_Board := fun fen => if str_truthy fen then Ret tt else Raise ValueError;
     analyze_both_perspectives := analysis;
     send_client_content := Ret tt;
     extract_broadcast_context := Ret "Black to move";
     determine_query_perspective := Ret "black";
     format_for_live_model := fun _ => Ret (VStr "formatted") |}.

(** A companion that tracks a board and has a cached mask. *)
Definition sample_companion (board : option string) (busy : bool) : Companion :=
  mkCompanion board None busy [] true (Some sample_mask) false.

Definition sample_world (board : option string) (busy : bool) : World :=
  mkWorld (sample_companion board busy) [] [].

(** ** The rest of the companion *)

(** [transcribe_tv_audio] (lines 837-853): one audio stream after the
    other; each session handles the responses it gets before the stream
    ends or fails, on the buffer the previous one left. *)
Definition transcribe_tv_audio (str_strip : string -> string)
    (buffer : list string) (sessions : list (list Response)) : list string :=
  fold_left (_run_transcription_sync str_strip) sessions buffer.

(** [needle in haystack] on strings. *)
Fixpoint str_in (needle haystack : string) : bool :=
  String.prefix needle haystack
  || match haystack with
     | EmptyString => false
     | String _ rest => str_in needle rest
     end.

(** The entries of a PyAudio device description the companion reads. *)
Record DeviceInfo : Type := mkDeviceInfo {
  dev_name : string;
  maxInputChannels : Z;
  dev_index : Z
}.

Section Builtins.

(** The builtin [str.lower]. *)
Variable str_lower : string -> string.

(** The test of line 410. *)
Definition is_pulse_input (info : DeviceInfo) : bool :=
  str_in "pulse" (str_lower (dev_name info))
  && bool_decide (0 < maxInputChannels info).

(** [find_pulse_device] (lines 406-412), on the devices in index order
    and the default input device. *)
Fixpoint find_pulse_device (devices : list DeviceInfo)
    (default_input : DeviceInfo) : DeviceInfo :=
  match devices with
  | [] => default_input
  | info :: devices =>
      if is_pulse_input info then info
      else find_pulse_device devices default_input
  end.

(** [send_text] (lines 414-420), on the lines typed so far, each with the
    session's answer to sending it: the outcome and the messages handed to
    [send_realtime_input]. *)
Fixpoint send_text (typed : list (string * res unit))
  : res unit * list string :=
  match typed with
  | [] => (Ret tt, [])
  | (text, answer) :: typed =>
      if bool_decide (str_lower text = "q") then (Ret tt, [])
      else
        let message := if str_truthy text then text else "." in
        match answer with
        | Ret _ => let (outcome, sent) := send_text typed in
                   (outcome, message :: sent)
        | Raise e => (Raise e, [message])
        end
  end.

End Builtins.

(** One response of the dialogue session, as [receive_audio] reads it. *)
Record LiveResponse : Type := mkLiveResponse {
  resp_data : option string;
  resp_text : option string;
  resp_tool_call : option (res unit * list (Env * FunctionCall))
}.

(** A value that passes [if v := ...]: not [None] and not empty. *)
Definition py_truthy (v : option string) : option string :=
  match v with
  | Some s => if str_truthy s then Some s else None
  | None => None
  end.

(** The body of the [async for] of [receive_audio] (lines 901-915), on
    the audio queue as this coroutine fills it (the player that takes
    chunks from it is not modelled): audio first, then text, then a tool
    call. *)
Definition receive_response (response : LiveResponse)
    (audio_in_queue : list string) : M (list string) :=
  match py_truthy (resp_data response) with
  | Some data => ret (audio_in_queue ++ [data])
  | None =>
      match py_truthy (resp_text response) with
      | Some _ => ret audio_in_queue
      | None =>
          match resp_tool_call response with
          | Some (send_tool_response, calls) =>
              handle_tool_call send_tool_response calls;;;
              ret audio_in_queue
          | None => ret audio_in_queue
          end
      end
  end.

(** The [async for] over the responses of one turn. *)
Fixpoint receive_responses (turn : list LiveResponse)
    (audio_in_queue : list string) : M (list string) :=
  match turn with
  | [] => ret audio_in_queue
  | response :: turn =>
      audio_in_queue <- receive_response response audio_in_queue;;
      receive_responses turn audio_in_queue
  end.

(** One turn of [receive_audio] (lines 900-922): the responses, then the
    queue is emptied. *)
Definition receive_turn (turn : list LiveResponse)
    (audio_in_queue : list string) : M (list string) :=
  receive_responses turn audio_in_queue;;;
  ret [].

(** The resources [run] may hold when it ends (lines 1115-1123): whether
    [shared_cap], [mic_stream] and [pya] are set. *)
Record Resources : Type := mkResources {
  shared_cap : bool;
  mic_stream : bool;
  pya : bool
}.

(** [detect_initial_board_mask] (lines 445-464), on the resources the
    companion holds and on the world.  [video_capture] is the outcome of
    [cv2.VideoCapture(...)]: line 450 assigns its result to
    [self.shared_cap] before anything is tested.  [is_opened] is the
    outcome of [isOpened()], [set_resolution] that of the two [set] calls,
    [first_read] that of the read of line 459; [update_board_mask] then
    reads the device again through [env].  Nothing is caught here. *)
Definition detect_initial_board_mask (video_capture : res unit)
    (is_opened : res bool) (set_resolution : res unit)
    (first_read : res (option Frame)) (env : Env) (held : Resources)
    (w : World) : res unit * Resources * World :=
  match video_capture with
  | Raise e => (Raise e, held, w)
  | Ret _ =>
      let held := mkResources true (mic_stream held) (pya held) in
      let out :=
        (opened <- lib is_opened;;
         if negb opened then ret tt
         else
           lib set_resolution;;;
           captured <- call CapRead first_read;;
           match captured with
           | Some frame => update_board_mask env frame
           | None => ret tt
           end) w in
      (out.1, held, out.2)
  end.

(** What the cleanup calls answer. *)
Record CleanupEnv : Type := mkCleanupEnv {
  engine_pool_cleanup : res unit;
  cap_release : res unit;
  mic_close : res unit;
  pya_terminate : res unit
}.

Inductive cleanup_call : Type :=
  | EnginePoolCleanup
  | CapRelease
  | MicClose
  | PyaTerminate.

(** A cleanup call that is made when [held] and logged. *)
Definition cleanup_step (held : bool) (c : cleanup_call) (answer : res unit)
    (next : res unit * list cleanup_call) : res unit * list cleanup_call :=
  if held then
    match answer with
    | Ret _ => (next.1, c :: next.2)
    | Raise e => (Raise e, [c])
    end
  else next.

(** The [finally] block of [run] (lines 1115-1123); the companion always
    has its [engine_pool]. *)
Definition cleanup (held : Resources) (cenv : CleanupEnv)
  : res unit * list cleanup_call :=
  cleanup_step true EnginePoolCleanup (engine_pool_cleanup cenv)
    (cleanup_step (shared_cap held) CapRelease (cap_release cenv)
       (cleanup_step (mic_stream held) MicClose (mic_close cenv)
          (cleanup_step (pya held) PyaTerminate (pya_terminate cenv)
             (Ret tt, [])))).

(** [run] (lines 1087-1123), under the name [run_companion] since [run]
    is the runner of schedules: [pipeline] is the outcome of the session
    and its task group (lines 1095-1110). *)
Definition run_companion (pipeline : res unit) (held : Resources)
    (cenv : CleanupEnv) : res unit * list cleanup_call :=
  let body :=
    match pipeline with
    | Raise e => if is_Exception e then Ret tt else Raise e
    | Ret _ => Ret tt
    end in
  let done := cleanup held cenv in
  (match done.1 with
   | Raise e => Raise e
   | Ret _ => body
   end, done.2).

(** The positions and frames the board changes of a schedule report. *)
Fixpoint board_changes (schedule : list action) : list (string * Frame) :=
  match schedule with
  | [] => []
  | BoardChange new_fen frame :: schedule =>
      (new_fen, frame) :: board_changes schedule
  | _ :: schedule => board_changes schedule
  end.

(** The transcript lines that arrive during a schedule. *)
Fixpoint transcript_lines (schedule : list action) : list string :=
  match schedule with
  | [] => []
  | TranscriptArrives line :: schedule => line :: transcript_lines schedule
  | _ :: schedule => transcript_lines schedule
  end.

(** The action that lets the first task of the loop go on, with what the
    analyzer and the dialogue session answer it. *)
Definition advance_first (analyzer_answer : res Analyses)
    (send_answer : res unit) (t : task) : action :=
  match t with
  | Created _ _ => TaskStarts 0
  | AwaitingAnalyzer => AnalyzerAnswers 0 analyzer_answer
  | AwaitingSend => SendAnswers 0 send_answer
  end.

(** Letting the tasks go on to their end, the first task first; the
    action made with [n] actions left is answered by [analyzer_answers n]
    and [send_answers n]. *)
Fixpoint drain (analyzer_answers : nat -> res Analyses)
    (send_answers : nat -> res unit) (fuel : nat) (w : World) : list action :=
  match fuel with
  | O => []
  | S fuel =>
      match tasks w with
      | [] => []
      | t :: _ =>
          let a :=
            advance_first (analyzer_answers fuel) (send_answers fuel) t in
          match step a w with
          | Some w' => a :: drain analyzer_answers send_answers fuel w'
          | None => []
          end
      end
  end.

(** A bound on the actions the tasks still need. *)
Definition steps_left (ts : list task) : nat :=
  list_sum (map (fun t => match t with
                          | Created _ _ => 3%nat
                          | AwaitingAnalyzer => 2%nat
                          | AwaitingSend => 1%nat
                          end) ts).

(** The pairs a trace asked the analyzer about. *)
Definition analyzed (tr : list event) : list (string * Frame) :=
  omap (fun ev => match ev with
                  | AnalyzeBothPerspectives fen frame _ => Some (fen, frame)
                  | _ => None
                  end) tr.

(** The calls to the piece detector in a trace. *)
Definition is_detector_call (ev : event) : bool :=
  match ev with
  | DetectPieces _ => true
  | _ => false
  end.

Definition detector_calls (w : World) : nat :=
  length (filter (fun ev => is_detector_call ev = true) (trace w)).

(** ** Proof tools for the monad *)

Ltac unfold_monad :=
  unfold try_except, try_except_all, try_finally, bind, ret, raise, get_self,
    modify_self, set_mask, call, await, lib, create_task, getitem in *.

(** Split on an innermost scrutinee the goal still matches on. *)
Ltac split_match :=
  match goal with
  | |- context [match ?x with _ => _ end] =>
      lazymatch x with
      | context [match _ with _ => _ end] => fail
      | _ => destruct x eqn:?
      end
  end; simpl in *.

Ltac split_matches := repeat (split_match; try done).

(** Split on what a hypothesis about a step still matches on. *)
Ltac split_step H :=
  repeat match type of H with
         | context [match ?x with _ => _ end] =>
             lazymatch x with
             | context [match _ with _ => _ end] => fail
             | _ => destruct x eqn:?
             end
         end;
  try discriminate H; try (injection H as <-).

(** * Properties *)

(** ** The commentary buffer *)

Lemma py_last_length {A : Type} (k : nat) (l : list A) :
  length (py_last k l) = (length l `min` k)%nat.
Proof. unfold py_last. rewrite length_drop. lia. Qed.

Lemma py_last_short {A : Type} (k : nat) (l : list A) :
  (length l <= k)%nat -> py_last k l = l.
Proof.
  intros Hle. unfold py_last.
  replace (length l - k)%nat with 0%nat by lia. reflexivity.
Qed.

(** Trimming before more lines arrive does not change what is kept. *)
Lemma py_last_app {A : Type} (k : nat) (l1 l2 : list A) :
  py_last k (py_last k l1 ++ l2) = py_last k (l1 ++ l2).
Proof.
  unfold py_last. rewrite !length_app, length_drop.
  destruct (decide (length l1 <= k)%nat) as [Hle|Hgt].
  - replace (length l1 - k)%nat with 0%nat by lia.
    rewrite drop_0. f_equal. lia.
  - rewrite !drop_app, !drop_drop, length_drop.
    f_equal; f_equal; lia.
Qed.

Lemma append_commentary_py_last (buffer : list string) (line : string) :
  append_commentary buffer line = py_last 10 (buffer ++ [line]).
Proof.
  unfold append_commentary. case_bool_decide as Hlen; [reflexivity|].
  symmetry. apply py_last_short. lia.
Qed.

Lemma run_transcription_py_last str_strip (responses : list Response) :
  forall buffer : list string,
    py_last 10 (_run_transcription_sync str_strip buffer responses)
    = py_last 10 (buffer ++ finalized_lines str_strip responses).
Proof.
  induction responses as [|response responses IH]; intros buffer; simpl.
  - by rewrite app_nil_r.
  - rewrite IH. unfold process_response.
    destruct (finalized_transcript str_strip response) as [line|]; [|done].
    rewrite append_commentary_py_last, py_last_app.
    by rewrite <- app_assoc.
Qed.

Lemma run_transcription_length str_strip (responses : list Response) :
  forall buffer : list string,
    (length buffer <= 10)%nat ->
    (length (_run_transcription_sync str_strip buffer responses) <= 10)%nat.
Proof.
  induction responses as [|response responses IH]; intros buffer Hlen; simpl.
  - done.
  - apply IH. unfold process_response.
    destruct (finalized_transcript str_strip response) as [line|]; [|done].
    rewrite append_commentary_py_last, py_last_length. lia.
Qed.

(** C6: whatever the speech client yields, the commentary buffer holds at
    most 10 lines after every response, and at the end it holds the last 10
    finalized lines in arrival order (all of them when there are at most
    10): the oldest lines are the ones dropped. *)
Theorem commentary_buffer_keeps_last_10 (str_strip : string -> string)
    (responses : list Response) :
  let lines := finalized_lines str_strip responses in
  let buffer := _run_transcription_sync str_strip [] responses in
  (forall k : nat,
     (length (_run_transcription_sync str_strip [] (take k responses)) <= 10)%nat)
  /\ buffer = drop (length lines - 10) lines
  /\ length buffer = (length lines `min` 10)%nat.
Proof.
  intros lines buffer.
  assert (Hbuf : buffer = py_last 10 lines).
  { subst buffer lines.
    rewrite <- (py_last_short 10 (_run_transcription_sync _ _ _)).
    - by rewrite run_transcription_py_last.
    - apply run_transcription_length. simpl. lia. }
  split; [|split].
  - intros k. apply run_transcription_length. simpl. lia.
  - exact Hbuf.
  - rewrite Hbuf. apply py_last_length.
Qed.

(** The scenario of the specification: eleven finalized lines T1..T11
    leave T2..T11 in the buffer. *)
Example commentary_buffer_eleven_lines :
  let final (t : string) := mkResponse [mkSpeechResult [mkAlternative t] true] in
  _run_transcription_sync (fun s => s) []
    (map final ["T1"; "T2"; "T3"; "T4"; "T5"; "T6"; "T7"; "T8"; "T9"; "T10";
                "T11"])
  = ["T2"; "T3"; "T4"; "T5"; "T6"; "T7"; "T8"; "T9"; "T10"; "T11"].
Proof. vm_compute. reflexivity. Qed.

Lemma filter_snoc_false {A : Type} (f : A -> bool) (l : list A) (x : A) :
  f x = false ->
  filter (fun y => f y = true) (l ++ [x]) = filter (fun y => f y = true) l.
Proof.
  intros Hx. rewrite filter_app, filter_cons_False by (by rewrite Hx).
  by rewrite filter_nil, app_nil_r.
Qed.

Lemma filter_snoc_true {A : Type} (f : A -> bool) (l : list A) (x : A) :
  f x = true ->
  filter (fun y => f y = true) (l ++ [x])
  = filter (fun y => f y = true) l ++ [x].
Proof.
  intros Hx. by rewrite filter_app, filter_cons_True, filter_nil.
Qed.

(** ** The board mask cache *)

(** When the capture answers without a frame, [update_board_mask] returns
    at line 537: nothing but the trace changes. *)
Lemma update_board_mask_no_frame (env : Env) (frame : Frame) (w : World) :
  cap_read env = Ret None ->
  update_board_mask env frame w
  = (Ret tt, mkWorld (self w) (tasks w) (trace w ++ [CapRead])).
Proof.
  intros Hcap. unfold update_board_mask. unfold_monad. simpl.
  by rewrite Hcap.
Qed.

(** Once a frame was captured, the cache is never left stale: it holds
    the new box, or it is cleared (a step raised an [Exception], the
    segmentation has no predictions, no box was extracted), unless an
    exception that is not an [Exception] escapes. *)
Lemma update_board_mask_with_frame (env : Env) (frame : Frame) (w : World)
    (screenshot : Frame) :
  cap_read env = Ret (Some screenshot) ->
  let out := update_board_mask env frame w in
  current_board_mask (self out.2) = None
  \/ (exists b, extract_bbox_from_segmentation env = Ret (Some b)
        /\ current_board_mask (self out.2)
           = Some (mkBoardMask (coords b) (bbox_confidence b) (time_now env)))
  \/ out.1 = Raise BaseOnly.
Proof.
  intros Hcap. unfold update_board_mask. unfold_monad. simpl.
  rewrite Hcap. simpl.
  destruct (to_1024 env) as [[]|[]]; simpl; auto.
  all: destruct (segment_board_direct env) as [[[[|p ps]|]]|[]]; simpl; auto.
  all: destruct (extract_bbox_from_segmentation env) as [[b|]|[]]; simpl;
    eauto.
Qed.

(** C2, at an input where the code departs from it: the capture yields no
    frame while a mask is cached, and the call returns at line 537 with
    that mask still in the cache. *)
Theorem update_board_mask_capture_failure_keeps_mask :
  let env := sample_env (Ret None) (Ret None) (Ret START_FEN)
               (Ret (mkConsensusResult None None)) (Ret sample_analyses) in
  let w := sample_world None false in
  cap_read env = Ret None
  /\ current_board_mask (self w) = Some sample_mask
  /\ update_board_mask env sample_frame w
     = (Ret tt, mkWorld (self w) [] [CapRead])
  /\ current_board_mask (self (update_board_mask env sample_frame w).2)
     = Some sample_mask.
Proof. repeat split. Qed.

(** ** Position extraction *)

(** The fallback detector touches neither the companion nor the tasks,
    and its trace is its entry followed by the one consensus call it makes
    once the frame is saved. *)
Lemma fallback_effect (env : Env) (frame : Frame) (w : World) :
  let out := _fallback_full_detection env frame w in
  self out.2 = self w
  /\ tasks out.2 = tasks w
  /\ trace out.2
     = trace w ++ FallbackEntered ::
         match save_frame_to_temp env with
         | Ret temp_path => [ConsensusDetection temp_path 7 3]
         | Raise _ => []
         end.
Proof.
  unfold _fallback_full_detection. unfold_monad. simpl.
  destruct (save_frame_to_temp env) as [temp_path|e]; simpl.
  - rewrite <- app_assoc. simpl.
    destruct (consensus_piece_detection env) as [result|e]; simpl.
    + split_matches.
    + by destruct (is_Exception e).
  - by destruct (is_Exception e).
Qed.

(** The fallback detector returns a position only when the consensus
    reports at least 2 pieces and a position other than the sentinel. *)
Lemma fallback_position (env : Env) (frame : Frame) (w : World) (fen : string) :
  (_fallback_full_detection env frame w).1 = Ret (Some fen) ->
  exists result,
    consensus_piece_detection env = Ret result
    /\ 2 <= default 0 (piece_count result)
    /\ consensus_fen result = Some fen
    /\ fen <> EMPTY_BOARD_FEN.
Proof.
  unfold _fallback_full_detection. unfold_monad. simpl.
  destruct (save_frame_to_temp env) as [temp_path|e]; simpl;
    [|by destruct (is_Exception e)].
  destruct (consensus_piece_detection env) as [result|e]; simpl;
    [|by destruct (is_Exception e)].
  case_bool_decide as Hcount; simpl.
  - destruct (os_unlink env) as [[]|e]; simpl; [done|].
    by destruct (is_Exception e).
  - destruct (consensus_fen result) as [new_fen|] eqn:Hnew; simpl; [|done].
    destruct (os_unlink env) as [[]|e]; simpl;
      [|by destruct (is_Exception e)].
    case_bool_decide as Hfen; simpl; [done|].
    intros [= <-]. exists result. rewrite Hnew. repeat split; [lia|done].
Qed.

(** With the temporary file written and removed, a consensus below the
    2-piece floor or equal to the sentinel is turned down. *)
Lemma fallback_rejects (env : Env) (frame : Frame) (w : World)
    (temp_path : string) (result : ConsensusResult) :
  save_frame_to_temp env = Ret temp_path ->
  os_unlink env = Ret tt ->
  consensus_piece_detection env = Ret result ->
  default 0 (piece_count result) < 2
  \/ consensus_fen result = Some EMPTY_BOARD_FEN ->
  (_fallback_full_detection env frame w).1 = Ret None.
Proof.
  intros Hsave Hunlink Hcons Hrej.
  unfold _fallback_full_detection. unfold_monad. simpl.
  rewrite Hsave. simpl. rewrite Hcons. simpl.
  case_bool_decide as Hcount; simpl.
  - by rewrite Hunlink.
  - destruct Hrej as [Hlt|Hfen]; [lia|].
    rewrite Hfen. simpl. by rewrite Hunlink.
Qed.

(** A detection the fast path turns down: it returns no position, and
    nothing but the call to the piece detector (and to the conversion, when
    there were 2 pieces or more) is added to the trace. *)
Lemma fast_path_rejected_effect (env : Env) (frame : Frame) (w : World) :
  fast_path_rejected env w ->
  let out := extract_fen_with_cached_mask env frame w in
  out.1 = Ret None
  /\ self out.2 = self w
  /\ tasks out.2 = tasks w
  /\ exists size_640,
       trace out.2 = trace w ++ [DetectPieces PIECE_MODEL_ID]
       \/ trace out.2 = trace w ++ [DetectPieces PIECE_MODEL_ID;
                                    PiecesToFen size_640.1 size_640.2
                                      PIECE_MODEL_ID].
Proof.
  intros (piece_result & (mask & size & size_640 & Hmask & Hcrop & Hw & Hh
                          & Hresize & Hdetect) & Hrej).
  unfold extract_fen_with_cached_mask. unfold_monad. simpl.
  rewrite Hmask, Hcrop. simpl.
  rewrite !bool_decide_false by done. simpl.
  rewrite Hresize. simpl. rewrite Hdetect. simpl.
  case_bool_decide as Hcount; simpl.
  - repeat split. exists size_640. by left.
  - destruct Hrej as [Hlt|Hfen]; [lia|].
    rewrite Hfen. simpl. repeat split. exists size_640. right.
    by rewrite <- app_assoc.
Qed.

(** Extraction, fast or not, touches neither the companion nor the
    tasks. *)
Lemma extract_preserves_state (env : Env) (frame : Frame) (w : World) :
  let out := extract_fen_with_cached_mask env frame w in
  self out.2 = self w /\ tasks out.2 = tasks w.
Proof.
  assert (Hfb : forall w' : World,
             (self w' = self w /\ tasks w' = tasks w) ->
             let out := _fallback_full_detection env frame w' in
             self out.2 = self w /\ tasks out.2 = tasks w).
  { intros w' [Hs Ht].
    destruct (fallback_effect env frame w') as (Hs' & Ht' & _).
    simpl in *. split; congruence. }
  unfold extract_fen_with_cached_mask. unfold_monad. simpl.
  destruct (current_board_mask (self w)) as [mask|]; simpl.
  - repeat first
      [ done
      | by apply Hfb
      | match goal with
        | |- context [_fallback_full_detection env frame ?w'] =>
            let H := fresh "H" in
            assert (H := Hfb w' (conj eq_refl eq_refl));
            destruct (_fallback_full_detection env frame w') as [[?|?] ?];
            simpl in *
        end
      | split_match ].
  - assert (H := Hfb w (conj eq_refl eq_refl)).
    destruct (_fallback_full_detection env frame w) as [[?|e] w1]; simpl in *;
      [done|].
    destruct (is_Exception e); [|done].
    assert (H' := Hfb w1 H).
    by destruct (_fallback_full_detection env frame w1) as [[?|?] ?].
Qed.

(** What the tracker leaves in [current_board]: a truthy position that
    [chess.Board] accepts, whatever was there before; otherwise the
    previous value. *)
Lemma track_position_board (env : Env) (new_fen : option string)
    (frame : Frame) (w : World) :
  current_board (self (track_position env new_fen frame w).2)
  = match new_fen with
    | Some fen =>
        if str_truthy fen then
          match chess_Board env fen with
          | Ret _ => Some fen
          | Raise _ => current_board (self w)
          end
        else current_board (self w)
    | None => current_board (self w)
    end.
Proof.
  unfold track_position, is_valid_fen, on_board_change. unfold_monad.
  destruct new_fen as [fen|]; simpl; [|done].
  destruct (str_truthy fen); simpl; [|done].
  destruct (chess_Board env fen) as [[]|[]]; simpl; try done.
  case_bool_decide as Hne; simpl.
  - by destruct (analyzing (self w)).
  - done.
Qed.

(** What one turn of the loop leaves in [current_board]. *)
Lemma iteration_board (env : Env) (w : World) :
  current_board (self (fast_fen_detection_iteration env w).2)
  = match current_board_mask (self w), cap_read env with
    | Some _, Ret (Some frame) =>
        let w1 := mkWorld (self w) (tasks w) (trace w ++ [CapRead]) in
        match (extract_fen_with_cached_mask env frame w1).1 with
        | Ret new_fen =>
            current_board (self (track_position env new_fen frame w).2)
        | Raise _ => current_board (self w)
        end
    | _, _ => current_board (self w)
    end.
Proof.
  unfold fast_fen_detection_iteration. unfold_monad. simpl.
  destruct (current_board_mask (self w)) as [mask|]; simpl; [|done].
  destruct (cap_read env) as [[frame|]|e]; simpl; [|done|by destruct e].
  destruct (extract_preserves_state env frame
              (mkWorld (self w) (tasks w) (trace w ++ [CapRead])))
    as [Hself _].
  simpl in Hself.
  destruct (extract_fen_with_cached_mask env frame _) as [[new_fen|e] w2];
    simpl in *.
  - pose proof (track_position_board env new_fen frame w2) as Hboard.
    rewrite Hself in Hboard.
    rewrite (track_position_board env new_fen frame w), <- Hboard.
    destruct (track_position env new_fen frame w2) as [[[]|e] w3]; simpl;
      [done|by destruct (is_Exception e)].
  - destruct (is_Exception e); simpl; by rewrite Hself.
Qed.

(** C1, as the code has it: when the fast path reaches the piece detector
    and the detection has fewer than 2 pieces, or converts to the
    empty-board sentinel, the extraction returns no position and does not
    enter the fallback detector (no consensus call is made); the companion,
    and with it [current_board], is unchanged, also after the whole turn of
    the polling loop. *)
Theorem fast_path_rejection_returns_no_position
    (env : Env) (frame : Frame) (w : World) :
  fast_path_rejected env w ->
  let out := extract_fen_with_cached_mask env frame w in
  out.1 = Ret None
  /\ self out.2 = self w
  /\ fallback_entries out.2 = fallback_entries w
  /\ consensus_calls out.2 = consensus_calls w
  /\ current_board (self (fast_fen_detection_iteration env w).2)
     = current_board (self w).
Proof.
  intros Hrej.
  destruct (fast_path_rejected_effect env frame w Hrej)
    as (Hnone & Hself & _ & size_640 & Htrace).
  simpl. repeat split; try done.
  - unfold fallback_entries.
    destruct Htrace as [-> | ->]; rewrite filter_app; simpl;
      by rewrite length_app, Nat.add_0_r.
  - unfold consensus_calls.
    destruct Htrace as [-> | ->]; rewrite filter_app; simpl;
      by rewrite app_nil_r.
  - rewrite iteration_board.
    destruct (current_board_mask (self w)) as [mask|] eqn:Hmask; [|done].
    destruct (cap_read env) as [[captured|]|e]; try done.
    set (w1 := mkWorld (self w) (tasks w) (trace w ++ [CapRead])).
    assert (Hrej1 : fast_path_rejected env w1) by exact Hrej.
    destruct (fast_path_rejected_effect env captured w1 Hrej1) as (Hnone1 & _).
    simpl in Hnone1 |- *. rewrite Hnone1. by rewrite track_position_board.
Qed.

Lemma fast_path_rejection_returns_no_position_witness :
  let env := sample_env (Ret (Some sample_frame)) (Ret (Some (pieces 1)))
               (Ret START_FEN) (Ret (mkConsensusResult (Some 32) (Some START_FEN)))
               (Ret sample_analyses) in
  let w := sample_world (Some START_FEN) false in
  fast_path_rejected env w
  /\ (extract_fen_with_cached_mask env sample_frame w).1 = Ret None
  /\ fallback_entries (extract_fen_with_cached_mask env sample_frame w).2 = 0%nat.
Proof.
  intros env w.
  assert (Hrej : fast_path_rejected env w).
  { exists (pieces 1). split.
    - exists sample_mask, (600, 600), (640, 640). by repeat split.
    - left. simpl. lia. }
  split; [exact Hrej|].
  destruct (fast_path_rejection_returns_no_position env sample_frame w Hrej)
    as (Hnone & _ & Hfb & _).
  split; [exact Hnone|exact Hfb].
Defined.

(** The claim as the specification states it fails: here the cached mask
    is in place, the piece detector finds a single piece, and the
    extraction returns without entering the fallback detector. *)
Lemma fast_path_rejection_skips_fallback :
  ~ (forall (env : Env) (frame : Frame) (w : World),
       fast_path_rejected env w ->
       let out := extract_fen_with_cached_mask env frame w in
       current_board (self out.2) = current_board (self w)
       /\ (fallback_entries w < fallback_entries out.2)%nat).
Proof.
  intros Hclaim.
  pose (env := sample_env (Ret (Some sample_frame)) (Ret (Some (pieces 1)))
                 (Ret START_FEN)
                 (Ret (mkConsensusResult (Some 32) (Some START_FEN)))
                 (Ret sample_analyses)).
  destruct (Hclaim env sample_frame (sample_world (Some START_FEN) false))
    as [_ Hlt].
  - exists (pieces 1). split.
    + exists sample_mask, (600, 600), (640, 640). by repeat split.
    + left. simpl. lia.
  - vm_compute in Hlt. lia.
Qed.

(** C7: every run of the fallback detector logs its entry and then, once
    the frame is saved, exactly one consensus request, with 7 passes and a
    minimum agreement of 3; it never makes another request.  It returns a
    position only for a consensus of at least 2 pieces whose position is
    not the empty-board sentinel, and returns none for a consensus below
    that floor or equal to the sentinel: the two tests that also make the
    fast path return none. *)
Theorem fallback_requests_seven_passes_and_rejects
    (env : Env) (frame : Frame) (w : World) :
  let out := _fallback_full_detection env frame w in
  trace out.2
  = trace w ++ FallbackEntered ::
      match save_frame_to_temp env with
      | Ret temp_path => [ConsensusDetection temp_path 7 3]
      | Raise _ => []
      end
  /\ (forall fen : string,
        out.1 = Ret (Some fen) ->
        exists result,
          consensus_piece_detection env = Ret result
          /\ 2 <= default 0 (piece_count result)
          /\ consensus_fen result = Some fen
          /\ fen <> EMPTY_BOARD_FEN)
  /\ (forall (temp_path : string) (result : ConsensusResult),
        save_frame_to_temp env = Ret temp_path ->
        os_unlink env = Ret tt ->
        consensus_piece_detection env = Ret result ->
        default 0 (piece_count result) < 2
        \/ consensus_fen result = Some EMPTY_BOARD_FEN ->
        out.1 = Ret None)
  /\ (forall w' : World,
        fast_path_rejected env w' ->
        (extract_fen_with_cached_mask env frame w').1 = Ret None).
Proof.
  simpl. split; [|split; [|split]].
  - apply fallback_effect.
  - apply fallback_position.
  - intros temp_path result. apply fallback_rejects.
  - intros w' Hrej. by destruct (fast_path_rejected_effect env frame w' Hrej).
Qed.

Lemma fallback_requests_seven_passes_and_rejects_witness :
  let env := sample_env (Ret (Some sample_frame)) (Ret None) (Ret START_FEN)
               (Ret (mkConsensusResult (Some 1) (Some START_FEN)))
               (Ret sample_analyses) in
  let out := _fallback_full_detection env sample_frame
               (sample_world None false) in
  out.1 = Ret None
  /\ trace out.2
     = [FallbackEntered; ConsensusDetection "/tmp/frame.png" 7 3].
Proof.
  intros env out.
  destruct (fallback_requests_seven_passes_and_rejects env sample_frame
              (sample_world None false)) as (Htrace & _ & Hrej & _).
  split.
  - apply (Hrej "/tmp/frame.png" (mkConsensusResult (Some 1) (Some START_FEN)));
      try reflexivity.
    left. simpl. lia.
  - exact Htrace.
Defined.

(** ** The position-change loop *)

Lemma is_valid_fen_true (env : Env) (fen : string) (w : World) :
  (is_valid_fen env fen w).1 = Ret true <-> chess_Board env fen = Ret tt.
Proof.
  unfold is_valid_fen.
  destruct (chess_Board env fen) as [[]|[]]; simpl; split; done.
Qed.

(** C3: in every turn of the polling loop, [current_board] changes if and
    only if the turn extracts a position (there is a mask, a frame is
    captured, and the extraction returns a string) that [is_valid_fen]
    accepts and that differs from the previous [current_board]; then the
    new value is the extracted position, and in every other case
    [current_board] is unchanged.  [chess.Board] rejects the empty string
    with a [ValueError]. *)
Theorem board_changes_iff_valid_and_different (env : Env) (w : World) :
  chess_Board env "" = Raise ValueError ->
  let w1 := mkWorld (self w) (tasks w) (trace w ++ [CapRead]) in
  let w' := (fast_fen_detection_iteration env w).2 in
  let extracted (frame : Frame) (fen : string) : Prop :=
    current_board_mask (self w) <> None
    /\ cap_read env = Ret (Some frame)
    /\ (extract_fen_with_cached_mask env frame w1).1 = Ret (Some fen) in
  (current_board (self w') <> current_board (self w)
   <-> exists frame fen,
         extracted frame fen
         /\ (is_valid_fen env fen w1).1 = Ret true
         /\ Some fen <> current_board (self w))
  /\ (forall frame fen,
        extracted frame fen ->
        (is_valid_fen env fen w1).1 = Ret true ->
        Some fen <> current_board (self w) ->
        current_board (self w') = Some fen)
  /\ (~ (exists frame fen,
           extracted frame fen
           /\ (is_valid_fen env fen w1).1 = Ret true
           /\ Some fen <> current_board (self w)) ->
      current_board (self w') = current_board (self w)).
Proof.
  intros Hempty w1 w' extracted.
  assert (Hboard : current_board (self w')
            = match current_board_mask (self w), cap_read env with
              | Some _, Ret (Some frame) =>
                  match (extract_fen_with_cached_mask env frame w1).1 with
                  | Ret (Some fen) =>
                      match chess_Board env fen with
                      | Ret _ => Some fen
                      | Raise _ => current_board (self w)
                      end
                  | _ => current_board (self w)
                  end
              | _, _ => current_board (self w)
              end).
  { subst w'. rewrite iteration_board. cbv zeta. fold w1.
    destruct (current_board_mask (self w)); [|done].
    destruct (cap_read env) as [[frame|]|]; try done.
    destruct (extract_fen_with_cached_mask env frame w1).1
      as [[fen|]|]; try done.
    rewrite track_position_board.
    destruct (str_truthy fen) eqn:Htruthy; [done|].
    unfold str_truthy in Htruthy. apply negb_false_iff in Htruthy.
    apply bool_decide_eq_true in Htruthy. subst fen. by rewrite Hempty. }
  assert (Hchanged : forall frame fen,
            extracted frame fen ->
            (is_valid_fen env fen w1).1 = Ret true ->
            current_board (self w') = Some fen).
  { intros frame fen (Hmask & Hcap & Hext) Hvalid.
    apply is_valid_fen_true in Hvalid. rewrite Hboard.
    destruct (current_board_mask (self w)); [|done].
    by rewrite Hcap, Hext, Hvalid. }
  assert (Hiff : current_board (self w') <> current_board (self w)
            -> exists frame fen,
                extracted frame fen
                /\ (is_valid_fen env fen w1).1 = Ret true
                /\ Some fen <> current_board (self w)).
  { rewrite Hboard. intros Hne. unfold extracted.
    destruct (current_board_mask (self w)) as [mask|]; [|done].
    destruct (cap_read env) as [[frame|]|]; try done.
    destruct (extract_fen_with_cached_mask env frame w1).1
      as [[fen|]|] eqn:Hext; try done.
    destruct (chess_Board env fen) as [[]|] eqn:Hvalid; [|done].
    exists frame, fen. repeat split; try done.
    by apply is_valid_fen_true. }
  split; [split|split].
  - exact Hiff.
  - intros (frame & fen & Hext & Hvalid & Hne).
    rewrite (Hchanged frame fen Hext Hvalid). done.
  - intros frame fen Hext Hvalid _. by apply (Hchanged frame fen).
  - intros Hnot.
    destruct (decide (current_board (self w') = current_board (self w)))
      as [Heq|Hne]; [done|].
    exfalso. by apply Hnot, Hiff.
Qed.

Lemma board_changes_iff_valid_and_different_witness :
  let env := sample_env (Ret (Some sample_frame)) (Ret (Some (pieces 32)))
               (Ret START_FEN)
               (Ret (mkConsensusResult (Some 32) (Some START_FEN)))
               (Ret sample_analyses) in
  let w := sample_world None false in
  chess_Board env "" = Raise ValueError
  /\ current_board (self (fast_fen_detection_iteration env w).2)
     = Some START_FEN.
Proof.
  intros env w. split; [reflexivity|].
  destruct (board_changes_iff_valid_and_different env w eq_refl)
    as (_ & Hchanged & _).
  apply (Hchanged sample_frame START_FEN).
  - split; [done|]. split; [reflexivity|]. vm_compute. reflexivity.
  - reflexivity.
  - done.
Defined.

(** ** The analysis scheduler *)

(** A busy scheduler: [analyze_new_position] returns at line 695. *)
Lemma analyze_busy_is_noop (env : Env) (fen : string) (frame : Frame)
    (w : World) :
  analyzing (self w) = true ->
  analyze_new_position env fen frame w = (Ret tt, w).
Proof.
  intros Hbusy. unfold analyze_new_position. unfold_monad. by rewrite Hbusy.
Qed.

(** An idle scheduler: the flag is down again when the method is left,
    the tasks are untouched, only a [BaseException] can escape, and the
    analyzer was called once, with the position, the frame and the
    commentary buffer. *)
Lemma analyze_idle_effect (env : Env) (fen : string) (frame : Frame)
    (w : World) :
  analyzing (self w) = false ->
  let out := analyze_new_position env fen frame w in
  analyzing (self out.2) = false
  /\ tasks out.2 = tasks w
  /\ (forall e, out.1 = Raise e -> e = BaseOnly)
  /\ analyzer_calls out.2
     = analyzer_calls w
       ++ [AnalyzeBothPerspectives fen frame (commentary_buffer (self w))].
Proof.
  intros Hidle. unfold analyze_new_position, send_analysis_to_gemini.
  unfold_monad. rewrite Hidle. simpl. unfold analyzer_calls.
  destruct (analyze_both_perspectives env) as [analyses|[]]; simpl.
  1: destruct (watching_mode (self w)); simpl.
  1: destruct (analyses !! "white") as [white|]; simpl.
  1: destruct (gemini_parts white) as [parts|[]]; simpl.
  1: destruct (send_client_content env) as [[]|[]]; simpl.
  all: rewrite ?filter_snoc_false by done; rewrite filter_snoc_true by done.
  all: repeat split; try done; by intros ? [= <-].
Qed.

(** An analyzer that raises an [Exception] ends the method normally. *)
Lemma analyze_failure_is_caught (env : Env) (fen : string) (frame : Frame)
    (w : World) (e : exn) :
  analyze_both_perspectives env = Raise e ->
  is_Exception e = true ->
  (analyze_new_position env fen frame w).1 = Ret tt.
Proof.
  intros Hraise He. unfold analyze_new_position. unfold_monad.
  destruct (analyzing (self w)); simpl; [done|].
  rewrite Hraise. simpl. by rewrite He.
Qed.

(** An analyzer that raises leaves the stored analysis as it was. *)
Lemma analyze_failure_keeps_analysis (env : Env) (fen : string)
    (frame : Frame) (w : World) (e : exn) :
  analyze_both_perspectives env = Raise e ->
  current_analysis (self (analyze_new_position env fen frame w).2)
  = current_analysis (self w).
Proof.
  intros Hraise. unfold analyze_new_position. unfold_monad.
  destruct (analyzing (self w)); simpl; [done|].
  rewrite Hraise. simpl. by destruct (is_Exception e).
Qed.

(** An analyzer that returns has its answer stored. *)
Lemma analyze_success_stores_analysis (env : Env) (fen : string)
    (frame : Frame) (w : World) (analyses : Analyses) :
  analyzing (self w) = false ->
  analyze_both_perspectives env = Ret analyses ->
  current_analysis (self (analyze_new_position env fen frame w).2)
  = Some analyses.
Proof.
  intros Hidle Hret. unfold analyze_new_position, send_analysis_to_gemini.
  unfold_monad. rewrite Hidle. simpl. rewrite Hret. simpl.
  split_matches.
Qed.

(** [on_board_change]: the board is updated, and a task is created only
    when the scheduler is idle. *)
Lemma on_board_change_effect (new_fen : string) (frame : Frame) (w : World) :
  on_board_change new_fen frame w
  = (Ret tt,
     mkWorld (set_current_board (Some new_fen) (self w))
       (if analyzing (self w) then tasks w
        else tasks w ++ [Created new_fen frame])
       (trace w)).
Proof.
  unfold on_board_change. unfold_monad. simpl.
  by destruct (analyzing (self w)).
Qed.

(** ** The event loop: at most one analysis in flight *)

Lemma in_flight_nil (c : Companion) (tr : list event) :
  in_flight (mkWorld c [] tr) = 0%nat.
Proof. reflexivity. Qed.

Lemma flying_cons (t : task) (ts : list task) :
  length (filter (fun t => is_in_flight t = true) (t :: ts))
  = (weight t + length (filter (fun t => is_in_flight t = true) ts))%nat.
Proof.
  unfold weight. destruct (is_in_flight t) eqn:Ht.
  - by rewrite filter_cons_True.
  - rewrite filter_cons_False; [done|]. by rewrite Ht.
Qed.

Lemma flying_app (ts1 ts2 : list task) :
  length (filter (fun t => is_in_flight t = true) (ts1 ++ ts2))
  = (length (filter (fun t => is_in_flight t = true) ts1)
     + length (filter (fun t => is_in_flight t = true) ts2))%nat.
Proof. by rewrite filter_app, length_app. Qed.

(** Removing the [i]-th task takes its weight away. *)
Lemma flying_delete (ts : list task) (i : nat) (t : task) :
  ts !! i = Some t ->
  length (filter (fun t => is_in_flight t = true) ts)
  = (weight t
     + length (filter (fun t => is_in_flight t = true) (delete i ts)))%nat.
Proof.
  intros Hi. rewrite <- (take_drop_middle ts i t Hi) at 1.
  rewrite delete_take_drop, !flying_app, flying_cons. lia.
Qed.

(** Replacing the [i]-th task swaps the weights. *)
Lemma flying_insert (ts : list task) (i : nat) (t t' : task) :
  ts !! i = Some t ->
  (length (filter (fun t => is_in_flight t = true) (<[i:=t']> ts)) + weight t
   = length (filter (fun t => is_in_flight t = true) ts) + weight t')%nat.
Proof.
  intros Hi. rewrite <- (take_drop_middle ts i t Hi) at 2.
  rewrite insert_take_drop by (by eapply lookup_lt_Some).
  rewrite !flying_app, !flying_cons. lia.
Qed.

Lemma delete_insert_same (ts : list task) (i : nat) (t : task) :
  delete i (<[i:=t]> ts) = delete i ts.
Proof.
  destruct (decide (i < length ts)%nat) as [Hlt|Hge].
  - rewrite insert_take_drop by done.
    rewrite !delete_take_drop.
    rewrite take_app_le by (rewrite length_take; lia).
    rewrite take_take, Nat.min_id.
    rewrite drop_app_ge by (rewrite length_take; lia).
    rewrite length_take. replace (S i - i `min` length ts)%nat with 1%nat by lia.
    done.
  - by rewrite list_insert_ge by lia.
Qed.

Lemma step_keeps_invariant (a : action) (w w' : World) :
  scheduler_invariant w -> step a w = Some w' -> scheduler_invariant w'.
Proof.
  unfold scheduler_invariant, in_flight. intros Hinv Hstep.
  destruct a as [new_fen frame|i|i answer|i answer|line|b|mask]; simpl in Hstep.
  - rewrite on_board_change_effect in Hstep. injection Hstep as <-. simpl.
    destruct (analyzing (self w)); [done|].
    rewrite flying_app, Hinv. reflexivity.
  - destruct (tasks w !! i) as [[fen frame| |]|] eqn:Hi; try done.
    pose proof (flying_delete _ _ _ Hi) as Hdel.
    pose proof (flying_insert _ _ _ AwaitingAnalyzer Hi) as Hins.
    unfold weight in *; simpl in *.
    destruct (analyzing (self w)) eqn:Hbusy; injection Hstep as <-; simpl;
      rewrite ?Hbusy; lia.
  - destruct (tasks w !! i) as [[fen frame| |]|] eqn:Hi; try done.
    pose proof (flying_delete _ _ _ Hi) as Hdel.
    pose proof (flying_insert _ _ _ AwaitingSend Hi) as Hins.
    unfold weight in *; simpl in *.
    destruct (analyzing (self w)) eqn:Hbusy; [|lia].
    destruct answer as [analyses|e]; simpl in Hstep.
    + destruct (watching_mode (self w)).
      * destruct (analyses !! "white") as [white|].
        -- destruct (gemini_parts white);
             injection Hstep as <-; simpl; rewrite ?Hbusy; lia.
        -- injection Hstep as <-; simpl; lia.
      * injection Hstep as <-; simpl; lia.
    + injection Hstep as <-; simpl; lia.
  - destruct (tasks w !! i) as [[fen frame| |]|] eqn:Hi; try done.
    pose proof (flying_delete _ _ _ Hi) as Hdel.
    unfold weight in *; simpl in *.
    destruct (analyzing (self w)) eqn:Hbusy; injection Hstep as <-; simpl;
      rewrite ?Hbusy; lia.
  - by injection Hstep as <-.
  - by injection Hstep as <-.
  - by injection Hstep as <-.
Qed.

Lemma run_keeps_invariant (schedule : list action) :
  forall w w' : World,
    scheduler_invariant w -> run schedule w = Some w' -> scheduler_invariant w'.
Proof.
  induction schedule as [|a schedule IH]; intros w w' Hinv Hrun; simpl in Hrun.
  - by injection Hrun as <-.
  - destruct (step a w) as [w1|] eqn:Hstep; [|done].
    eapply IH; [|exact Hrun]. by eapply step_keeps_invariant.
Qed.

Lemma run_app (schedule later : list action) (w : World) :
  run (schedule ++ later) w
  = match run schedule w with
    | Some w' => run later w'
    | None => None
    end.
Proof.
  revert w. induction schedule as [|a schedule IH]; intros w; simpl; [done|].
  by destruct (step a w).
Qed.

(** In every world the loop can reach from the construction, at most one
    analysis is in flight, and the busy flag tells whether one is. *)
Lemma reachable_at_most_one_in_flight (schedule : list action)
    (debug watching : bool) (w : World) :
  run schedule (initial_world debug watching) = Some w ->
  (in_flight w <= 1)%nat /\ (analyzing (self w) = true <-> in_flight w = 1%nat).
Proof.
  intros Hrun.
  assert (Hinv : scheduler_invariant w).
  { eapply run_keeps_invariant; [|exact Hrun]. reflexivity. }
  unfold scheduler_invariant in Hinv. rewrite Hinv.
  destruct (analyzing (self w)); split; try lia; split; done.
Qed.

(** The loop's view and the method agree: the actions of a created task,
    run back to back with the collaborators' answers of [env] up to the
    point where the task ends, leave the companion and the trace that
    [analyze_new_position] leaves, and the task is gone. *)
Lemma task_schedule_agrees (env : Env) (i : nat) (w : World) (fen : string)
    (frame : Frame) :
  tasks w !! i = Some (Created fen frame) ->
  let out := analyze_new_position env fen frame w in
  exists n : nat,
    run (take n (task_schedule env i)) w
    = Some (mkWorld (self out.2) (delete i (tasks w)) (trace out.2)).
Proof.
  intros Hi.
  assert (Hlt : (i < length (tasks w))%nat) by (by eapply lookup_lt_Some).
  unfold analyze_new_position, send_analysis_to_gemini, task_schedule.
  unfold_monad. cbv zeta.
  destruct (analyzing (self w)) eqn:Hbusy.
  { exists 1%nat. cbn [take run step]. by rewrite Hi, Hbusy. }
  assert (Hstart : step (TaskStarts i) w
            = Some (mkWorld (set_analyzing true (self w))
                      (<[i:=AwaitingAnalyzer]> (tasks w))
                      (trace w ++ [AnalyzeBothPerspectives fen frame
                                     (commentary_buffer (self w))]))).
  { cbn [step]. by rewrite Hi, Hbusy. }
  assert (Hawait : forall (c : Companion) (ts : list task) (tr : list event)
                     (t : task),
            (i < length ts)%nat ->
            tasks (mkWorld c (<[i:=t]> ts) tr) !! i = Some t).
  { intros c ts tr t Hts. cbn [tasks]. by apply list_lookup_insert_eq. }
  destruct (analyze_both_perspectives env) as [analyses|e] eqn:Hanswer;
    [destruct (watching_mode (self w)) eqn:Hwatch;
     [destruct (analyses !! "white") as [white|] eqn:Hwhite;
      [destruct (gemini_parts white) as [parts|e] eqn:Hparts|]|]|].
  1: exists 3%nat.
  2-5: exists 2%nat.
  all: cbn [take run]; rewrite Hstart; cbn [step]; rewrite Hawait by done.
  all: cbn [self watching_mode set_current_analysis set_analyzing].
  all: rewrite ?Hwatch, ?Hwhite, ?Hparts.
  1: rewrite Hawait by (by cbn [tasks]; rewrite ?length_insert).
  all: unfold finish_task; cbn [tasks self trace].
  all: rewrite !delete_insert_same; simpl.
  all: rewrite ?Hwatch; simpl; rewrite ?Hwhite; simpl; rewrite ?Hparts; simpl.
  - by destruct (send_client_content env) as [[]|[]].
  - by destruct e.
  - done.
  - done.
  - by destruct e.
Qed.

(** C4: in a world the loop can reach in which the busy flag is up, a
    board change updates [current_board] to the new position but creates no
    task and calls no collaborator; [analyze_new_position] called for the
    new position returns at once without touching anything.  Exactly one
    analysis is in flight before and after the event, and at most one in
    every world reached later. *)
Theorem board_change_while_busy_starts_no_analysis
    (schedule : list action) (debug watching : bool) (w : World)
    (new_fen : string) (frame : Frame) (env : Env) :
  run schedule (initial_world debug watching) = Some w ->
  analyzing (self w) = true ->
  let w' := (on_board_change new_fen frame w).2 in
  step (BoardChange new_fen frame) w = Some w'
  /\ current_board (self w') = Some new_fen
  /\ tasks w' = tasks w
  /\ trace w' = trace w
  /\ analyzing (self w') = true
  /\ current_analysis (self w') = current_analysis (self w)
  /\ analyze_new_position env new_fen frame w' = (Ret tt, w')
  /\ in_flight w = 1%nat
  /\ in_flight w' = 1%nat
  /\ (forall (later : list action) (w'' : World),
        run later w' = Some w'' -> (in_flight w'' <= 1)%nat).
Proof.
  intros Hrun Hbusy w'.
  assert (Hinv : scheduler_invariant w).
  { eapply run_keeps_invariant; [|exact Hrun]. reflexivity. }
  assert (Hstep : step (BoardChange new_fen frame) w = Some w') by done.
  assert (Hinv' : scheduler_invariant w') by (by eapply step_keeps_invariant).
  assert (Hw' : w' = mkWorld (set_current_board (Some new_fen) (self w))
                       (tasks w) (trace w)).
  { subst w'. rewrite on_board_change_effect. simpl. by rewrite Hbusy. }
  assert (Hbusy' : analyzing (self w') = true) by (by rewrite Hw').
  repeat split.
  - by rewrite Hw'.
  - by rewrite Hw'.
  - by rewrite Hw'.
  - exact Hbusy'.
  - by rewrite Hw'.
  - by apply analyze_busy_is_noop.
  - unfold scheduler_invariant in Hinv. by rewrite Hinv, Hbusy.
  - unfold scheduler_invariant in Hinv'. by rewrite Hinv', Hbusy'.
  - intros later w'' Hlater.
    pose proof (run_keeps_invariant later w' w'' Hinv' Hlater) as Hinv''.
    unfold scheduler_invariant in Hinv''. rewrite Hinv''.
    destruct (analyzing (self w'')); lia.
Qed.

Lemma board_change_while_busy_starts_no_analysis_witness :
  let env := sample_env (Ret (Some sample_frame)) (Ret None) (Ret START_FEN)
               (Ret (mkConsensusResult None None)) (Ret sample_analyses) in
  let schedule := [BoardChange START_FEN sample_frame; TaskStarts 0] in
  exists w : World,
    run schedule (initial_world false true) = Some w
    /\ analyzing (self w) = true
    /\ let w' := (on_board_change "8/8/8/8/8/8/8/K6k" sample_frame w).2 in
       current_board (self w') = Some "8/8/8/8/8/8/8/K6k"
       /\ tasks w' = [AwaitingAnalyzer].
Proof.
  intros env schedule.
  exists (mkWorld (mkCompanion (Some START_FEN) None true [] true None false)
            [AwaitingAnalyzer]
            [AnalyzeBothPerspectives START_FEN sample_frame []]).
  split; [reflexivity|]. split; [reflexivity|].
  destruct (board_change_while_busy_starts_no_analysis schedule false true
              (mkWorld (mkCompanion (Some START_FEN) None true [] true None
                          false)
                 [AwaitingAnalyzer]
                 [AnalyzeBothPerspectives START_FEN sample_frame []])
              "8/8/8/8/8/8/8/K6k" sample_frame env eq_refl eq_refl)
    as (_ & Hboard & Htasks & _).
  split; [exact Hboard|exact Htasks].
Defined.

(** C5: an execution of [analyze_new_position] that sets the busy flag
    (it found the flag down) leaves the method with the flag down, whatever
    the analyzer and the dialogue session answer or raise.  An [Exception]
    raised by the analyzer does not leave the method, and nothing but a
    [BaseException] ever does.  Afterwards a board change creates a task
    again and its analysis calls the analyzer. *)
Theorem busy_flag_reset_on_every_exit (env : Env) (fen : string)
    (frame : Frame) (w : World) :
  analyzing (self w) = false ->
  let out := analyze_new_position env fen frame w in
  analyzing (self out.2) = false
  /\ (forall e : exn,
        analyze_both_perspectives env = Raise e ->
        is_Exception e = true ->
        out.1 = Ret tt)
  /\ (forall e : exn, out.1 = Raise e -> e = BaseOnly)
  /\ (forall (env' : Env) (fen' : string) (frame' : Frame),
        let w2 := (on_board_change fen' frame' out.2).2 in
        tasks w2 = tasks out.2 ++ [Created fen' frame']
        /\ analyzer_calls (analyze_new_position env' fen' frame' w2).2
           = analyzer_calls w2
             ++ [AnalyzeBothPerspectives fen' frame'
                   (commentary_buffer (self w2))]).
Proof.
  intros Hidle out.
  destruct (analyze_idle_effect env fen frame w Hidle)
    as (Hreset & _ & Hbase & _).
  fold out in Hreset, Hbase.
  split; [exact Hreset|]. split; [|split; [exact Hbase|]].
  - intros e Hraise He. by eapply analyze_failure_is_caught.
  - intros env' fen' frame' w2.
    assert (Hw2 : w2 = mkWorld (set_current_board (Some fen') (self out.2))
                         (tasks out.2 ++ [Created fen' frame']) (trace out.2)).
    { subst w2. rewrite on_board_change_effect. simpl. by rewrite Hreset. }
    split; [by rewrite Hw2|].
    assert (Hidle2 : analyzing (self w2) = false) by (by rewrite Hw2).
    by destruct (analyze_idle_effect env' fen' frame' w2 Hidle2)
      as (_ & _ & _ & Hcalls).
Qed.

Lemma busy_flag_reset_on_every_exit_witness :
  let env := sample_env (Ret (Some sample_frame)) (Ret None) (Ret START_FEN)
               (Ret (mkConsensusResult None None)) (Raise OtherException) in
  let out := analyze_new_position env START_FEN sample_frame
               (sample_world (Some START_FEN) false) in
  analyzing (self out.2) = false /\ out.1 = Ret tt.
Proof.
  intros env out.
  destruct (busy_flag_reset_on_every_exit env START_FEN sample_frame
              (sample_world (Some START_FEN) false) eq_refl)
    as (Hreset & Hcaught & _).
  split; [exact Hreset|].
  apply (Hcaught OtherException); reflexivity.
Defined.

Lemma set_analyzing_round_trip (c : Companion) :
  analyzing c = false -> set_analyzing false (set_analyzing true c) = c.
Proof. destruct c; simpl; by intros ->. Qed.

(** An analyzer that raises leaves the whole companion as it was. *)
Lemma analyze_failure_keeps_companion (env : Env) (fen : string)
    (frame : Frame) (w : World) (e : exn) :
  analyze_both_perspectives env = Raise e ->
  self (analyze_new_position env fen frame w).2 = self w.
Proof.
  intros Hraise. unfold analyze_new_position. unfold_monad.
  destruct (analyzing (self w)) eqn:Hbusy; simpl; [done|].
  rewrite Hraise. simpl.
  destruct (is_Exception e); simpl; by apply set_analyzing_round_trip.
Qed.

(** ** The on-demand tool path *)

Lemma infer_perspective_answer (others_1 others_2 : World -> World)
    (env : Env) (user_query : string) (w : World) :
  (infer_perspective others_1 others_2 env user_query w).1
  = Ret (inferred_color env).
Proof.
  unfold infer_perspective, inferred_color. unfold_monad. simpl.
  destruct (cap_read env) as [[captured|]|e]; simpl; [|done..].
  destruct (extract_broadcast_context env) as [context|e]; simpl; [|done].
  by destruct (determine_query_perspective env).
Qed.


(** Run alone, the inference changes nothing but the trace, and calls
    neither the analyzer's analysis nor the event loop. *)
Lemma infer_perspective_effect (env : Env) (user_query : string) (w : World) :
  exists calls : list event,
    infer_perspective id id env user_query w
    = (Ret (inferred_color env),
       mkWorld (self w) (tasks w) (trace w ++ calls))
    /\ filter (fun ev => is_analyzer_call ev = true) calls = [].
Proof.
  unfold infer_perspective, inferred_color. unfold_monad. simpl.
  destruct (cap_read env) as [[captured|]|e]; simpl.
  - destruct (extract_broadcast_context env) as [context|e]; simpl.
    + exists [CapRead; ExtractBroadcastContext captured;
              DetermineQueryPerspective user_query].
      rewrite <- !app_assoc.
      by destruct (determine_query_perspective env) as [color|e].
    + exists [CapRead; ExtractBroadcastContext captured].
      by rewrite <- !app_assoc.
  - by exists [CapRead].
  - by exists [CapRead].
Qed.

(** A position query without arguments fails at line 932, before
    anything is read or called. *)
Lemma analyze_current_position_without_args (others_1 others_2 : World -> World)
    (env : Env) (fc : FunctionCall) (w : World) :
  fc_args fc = None ->
  analyze_current_position others_1 others_2 env fc w
  = (Raise OtherException, w).
Proof.
  intros Hargs. unfold analyze_current_position, query_of. unfold_monad.
  by rewrite Hargs.
Qed.

Lemma analyze_without_args (env : Env) (fc : FunctionCall) (w : World) :
  fc_name fc = "analyze_current_position" ->
  fc_args fc = None ->
  handle_function_call env fc w = (Raise OtherException, w).
Proof.
  intros Hname Hargs. unfold handle_function_call.
  rewrite Hname, bool_decide_true by done.
  by apply analyze_current_position_without_args.
Qed.

(** The answer to a position query with arguments, in one equation:
    [inferred] is the world when line 951 reads the stored analysis. *)
Lemma analyze_current_position_equation (others_1 others_2 : World -> World)
    (env : Env) (fc : FunctionCall) (w : World) (args : gmap string string) :
  fc_args fc = Some args ->
  let user_query :=
    default "Analyze the current chess position" (args !! "query") in
  let color := inferred_color env in
  let inferred :=
    (infer_perspective others_1 others_2 env user_query w).2 in
  analyze_current_position others_1 others_2 env fc w
  = match current_analysis (self w) with
    | Some tested =>
        if dict_truthy tested then
          match current_analysis (self inferred) with
          | Some stored =>
              let analysis :=
                default (default ∅ (stored !! "white")) (stored !! color) in
              if dict_truthy analysis then
                let asked := <["user_query" := VStr user_query]> analysis in
                (match format_for_live_model env asked with
                 | Ret formatted =>
                     Ret (AnalysisReady formatted user_query color)
                 | Raise e => Raise e
                 end,
                 mkWorld (self inferred) (tasks inferred)
                   (trace inferred ++ [FormatForLiveModel asked]))
              else (Ret NoAnalysis, inferred)
          | None => (Raise OtherException, inferred)
          end
        else (Ret NoAnalysis, w)
    | None => (Ret NoAnalysis, w)
    end.
Proof.
  intros Hargs user_query color inferred.
  pose proof (infer_perspective_answer others_1 others_2 env user_query w)
    as Hanswer.
  unfold analyze_current_position, query_of. unfold_monad. rewrite Hargs.
  cbv zeta. fold user_query.
  destruct (current_analysis (self w)) as [tested|]; [|done].
  destruct (dict_truthy tested); [|done].
  subst inferred.
  destruct (infer_perspective others_1 others_2 env user_query w)
    as [answer mid].
  simpl in Hanswer. subst answer. cbn [fst snd]. fold color.
  destruct (current_analysis (self mid)) as [stored|]; [|done].
  destruct (dict_truthy _); [|done].
  destruct (format_for_live_model env _) as [formatted|e]; cbn [fst snd];
    [|done].
  by rewrite lookup_insert_eq.
Qed.

(** The same for a query handled alone: the stored analysis read at line
    951 is the one tested at line 936. *)
Lemma analyze_current_position_spec (env : Env) (fc : FunctionCall)
    (w : World) (args : gmap string string) :
  fc_name fc = "analyze_current_position" ->
  fc_args fc = Some args ->
  let user_query :=
    default "Analyze the current chess position" (args !! "query") in
  let color := inferred_color env in
  exists calls : list event,
    filter (fun ev => is_analyzer_call ev = true) calls = []
    /\ handle_function_call env fc w
       = match current_analysis (self w) with
         | Some stored =>
             if dict_truthy stored then
               let analysis :=
                 default (default ∅ (stored !! "white")) (stored !! color) in
               if dict_truthy analysis then
                 let asked := <["user_query" := VStr user_query]> analysis in
                 (match format_for_live_model env asked with
                  | Ret formatted =>
                      Ret (AnalysisReady formatted user_query color)
                  | Raise e => Raise e
                  end,
                  mkWorld (self w) (tasks w)
                    (trace w ++ calls ++ [FormatForLiveModel asked]))
               else (Ret NoAnalysis,
                     mkWorld (self w) (tasks w) (trace w ++ calls))
             else (Ret NoAnalysis, w)
         | None => (Ret NoAnalysis, w)
         end.
Proof.
  intros Hname Hargs user_query color.
  destruct (infer_perspective_effect env user_query w)
    as (calls & Hinfer & Hcalls).
  exists calls. split; [done|].
  unfold handle_function_call. rewrite Hname, bool_decide_true by done.
  rewrite (analyze_current_position_equation id id env fc w args Hargs).
  cbv zeta. fold user_query. rewrite Hinfer. cbn [snd self tasks trace].
  destruct (current_analysis (self w)) as [stored|]; [|done].
  destruct (dict_truthy stored); [|done]. fold color.
  destruct (dict_truthy _); [|done]. by rewrite <- app_assoc.
Qed.

(** What a function call is answered depends on the companion only, not
    on the tasks or on the calls made before. *)
Lemma handle_function_call_reads_companion (env : Env) (fc : FunctionCall)
    (w1 w2 : World) :
  self w1 = self w2 ->
  (handle_function_call env fc w1).1 = (handle_function_call env fc w2).1.
Proof.
  intros Hself.
  destruct (decide (fc_name fc = "analyze_current_position")) as [Hname|Hname].
  - destruct (fc_args fc) as [args|] eqn:Hargs;
      [|by rewrite !analyze_without_args].
    destruct (analyze_current_position_spec env fc w1 args Hname Hargs)
      as (calls1 & _ & ->).
    destruct (analyze_current_position_spec env fc w2 args Hname Hargs)
      as (calls2 & _ & ->).
    rewrite Hself.
    destruct (current_analysis (self w2)) as [stored|]; [|done].
    destruct (dict_truthy stored); [|done]. cbv zeta.
    by destruct (dict_truthy _).
  - unfold handle_function_call. rewrite (bool_decide_false _ Hname).
    unfold_monad. by repeat case_bool_decide.
Qed.



(** C10: when the analyzer raises during [analyze_new_position], the
    companion, and with it the stored [current_analysis] (an analysis or
    none), is what it was before the call, in the method run on its own as
    in the event loop; a tool query is answered afterwards as it would have
    been before.  The stored analysis is replaced only by an analyzer that
    returns. *)
Theorem analyzer_failure_keeps_stored_analysis (env : Env) (fen : string)
    (frame : Frame) (w : World) (e : exn) :
  analyze_both_perspectives env = Raise e ->
  let out := analyze_new_position env fen frame w in
  current_analysis (self out.2) = current_analysis (self w)
  /\ self out.2 = self w
  /\ (forall (env' : Env) (fc : FunctionCall),
        (handle_function_call env' fc out.2).1
        = (handle_function_call env' fc w).1)
  /\ (forall (i : nat) (w' : World),
        step (AnalyzerAnswers i (Raise e)) w = Some w' ->
        current_analysis (self w') = current_analysis (self w))
  /\ (forall (env' : Env) (analyses : Analyses),
        analyzing (self w) = false ->
        analyze_both_perspectives env' = Ret analyses ->
        current_analysis (self (analyze_new_position env' fen frame w).2)
        = Some analyses).
Proof.
  intros Hraise out.
  pose proof (analyze_failure_keeps_companion env fen frame w e Hraise)
    as Hself.
  fold out in Hself.
  split; [by rewrite Hself|]. split; [exact Hself|]. split; [|split].
  - intros env' fc. by apply handle_function_call_reads_companion.
  - intros i w' Hstep. cbn [step] in Hstep.
    destruct (tasks w !! i) as [[| |]|]; try done.
    by injection Hstep as <-.
  - intros env' analyses. apply analyze_success_stores_analysis.
Qed.

Lemma analyzer_failure_keeps_stored_analysis_witness :
  let env := sample_env (Ret (Some sample_frame)) (Ret None) (Ret START_FEN)
               (Ret (mkConsensusResult None None)) (Raise OtherException) in
  let w := mkWorld (mkCompanion (Some START_FEN) (Some sample_analyses) false
                      [] true (Some sample_mask) false) [] [] in
  current_analysis
    (self (analyze_new_position env "8/8/8/8/8/8/8/K6k" sample_frame w).2)
  = Some sample_analyses.
Proof.
  intros env w.
  destruct (analyzer_failure_keeps_stored_analysis env "8/8/8/8/8/8/8/K6k"
              sample_frame w OtherException eq_refl) as (Hkept & _).
  exact Hkept.
Defined.

(** ** Construction and startup *)

(** C8: without the variable ROBOFLOW_API_KEY in the environment (or with
    an empty value, which the check treats alike), the construction raises
    [ValueError] whatever the later construction steps would do, and the
    entry point never starts the pipeline.  With a non-empty key the check
    passes: the construction fails only if a later step does, and otherwise
    the pipeline starts with the fresh companion. *)
Theorem construction_requires_api_key (environ : gmap string string)
    (build_collaborators : res unit) (debug no_watch : bool) :
  (environ !! "ROBOFLOW_API_KEY" = None
   \/ environ !! "ROBOFLOW_API_KEY" = Some "" ->
   verify_api_key environ = Raise ValueError
   /\ __init__ environ build_collaborators debug (negb no_watch)
      = Raise ValueError
   /\ main environ build_collaborators debug no_watch
      = ConstructionFailed ValueError)
  /\ (forall key : string,
        environ !! "ROBOFLOW_API_KEY" = Some key ->
        key <> "" ->
        verify_api_key environ = Ret tt
        /\ __init__ environ build_collaborators debug (negb no_watch)
           = match build_collaborators with
             | Ret _ => Ret (initial_companion debug (negb no_watch))
             | Raise e => Raise e
             end
        /\ (build_collaborators = Ret tt ->
            main environ build_collaborators debug no_watch
            = PipelineStarted (initial_companion debug (negb no_watch)))).
Proof.
  unfold main, __init__, verify_api_key. split.
  - by intros [-> | ->].
  - intros key -> Hkey. unfold str_truthy.
    rewrite bool_decide_false by done. simpl.
    split; [done|]. split; [done|]. by intros ->.
Qed.

Lemma construction_requires_api_key_witness :
  __init__ ∅ (Ret tt) false true = Raise ValueError
  /\ __init__ {[ "ROBOFLOW_API_KEY" := "rf_0123456789" ]} (Ret tt) false true
     = Ret (initial_companion false true).
Proof.
  destruct (construction_requires_api_key ∅ (Ret tt) false false)
    as [Habsent _].
  destruct (construction_requires_api_key
              {[ "ROBOFLOW_API_KEY" := "rf_0123456789" ]} (Ret tt) false false)
    as [_ Hpresent].
  split.
  - apply Habsent. left. reflexivity.
  - apply (Hpresent "rf_0123456789"); [reflexivity|discriminate].
Defined.

(** * Further properties of the pipeline *)

(** ** The board mask cache, continued *)

Lemma set_current_board_mask_same (c : Companion) :
  set_current_board_mask (current_board_mask c) c = c.
Proof. by destruct c. Qed.

(** What [update_board_mask] can leave in the cache: what was there (no
    frame, or an exception that is not an [Exception]), nothing, or the box
    just extracted. *)
Lemma update_board_mask_cases (env : Env) (frame : Frame) (w : World) :
  let out := update_board_mask env frame w in
  tasks out.2 = tasks w
  /\ (forall e, out.1 = Raise e -> e = BaseOnly)
  /\ (self out.2 = self w
      \/ self out.2 = set_current_board_mask None (self w)
      \/ exists screenshot b,
           cap_read env = Ret (Some screenshot)
           /\ extract_bbox_from_segmentation env = Ret (Some b)
           /\ self out.2
              = set_current_board_mask
                  (Some (mkBoardMask (coords b) (bbox_confidence b)
                           (time_now env))) (self w)).
Proof.
  unfold update_board_mask. unfold_monad. cbv zeta. simpl.
  repeat split_match.
  all: repeat split; try done; try (by intros ? [= <-]); eauto 10.
  all: intros ? [= <-]; by destruct e.
Qed.

(** X1: when the capture, the segmentation and the box extraction all
    answer (the segmentation with at least one prediction),
    [update_board_mask] returns normally with the cache replaced as a whole
    by the new box, its confidence and the time the update began, whatever
    was cached before and whatever frame the caller passed; it made the
    three calls in order and touched nothing else. *)
Theorem update_board_mask_success_replaces_mask (env : Env) (frame : Frame)
    (w : World) (screenshot : Frame) (seg : SegmentationResult)
    (p : Prediction) (ps : list Prediction) (b : BBoxInfo) :
  cap_read env = Ret (Some screenshot) ->
  to_1024 env = Ret tt ->
  segment_board_direct env = Ret seg ->
  seg_predictions seg = Some (p :: ps) ->
  extract_bbox_from_segmentation env = Ret (Some b) ->
  update_board_mask env frame w
  = (Ret tt,
     mkWorld
       (set_current_board_mask
          (Some (mkBoardMask (coords b) (bbox_confidence b) (time_now env)))
          (self w))
       (tasks w) (trace w ++ [CapRead; SegmentBoard; ExtractBbox])).
Proof.
  intros Hcap Hto Hseg Hpreds Hbox.
  unfold update_board_mask. unfold_monad. simpl.
  rewrite Hcap. simpl. rewrite Hto. simpl. rewrite Hseg. simpl.
  rewrite Hpreds. simpl. rewrite Hbox. simpl.
  by rewrite <- !app_assoc.
Qed.

Lemma update_board_mask_success_replaces_mask_witness :
  let env := sample_env (Ret (Some sample_frame)) (Ret None) (Ret START_FEN)
               (Ret (mkConsensusResult None None)) (Ret sample_analyses) in
  current_board_mask
    (self (update_board_mask env sample_frame
             (sample_world None false)).2)
  = Some (mkBoardMask (200, 100, 800, 700) (Float64 4606281698874543309)
            (Float64 4742290407621132288)).
Proof.
  intros env.
  by rewrite (update_board_mask_success_replaces_mask env sample_frame
                (sample_world None false) sample_frame
                (mkSegmentationResult (Some [PredictionId 0]))
                (PredictionId 0) []
                (mkBBoxInfo (200, 100, 800, 700)
                   (Float64 4606281698874543309))
                eq_refl eq_refl eq_refl eq_refl eq_refl).
Defined.

(** X2: [update_board_mask] never lets an [Exception] escape and changes
    nothing of the companion but the cached mask: the board, the stored
    analysis, the busy flag, the commentary and the watching mode are what
    they were, and no task is created. *)
Theorem update_board_mask_touches_only_mask (env : Env) (frame : Frame)
    (w : World) :
  let out := update_board_mask env frame w in
  self out.2 = set_current_board_mask (current_board_mask (self out.2)) (self w)
  /\ tasks out.2 = tasks w
  /\ (out.1 = Ret tt \/ out.1 = Raise BaseOnly).
Proof.
  destruct (update_board_mask_cases env frame w)
    as (Htasks & Hexn & Hself).
  cbv zeta. split; [|split; [done|]].
  - destruct Hself as [Hself|[Hself|(s & b & _ & _ & Hself)]];
      rewrite Hself; simpl; try done.
    by rewrite set_current_board_mask_same.
  - destruct (update_board_mask env frame w).1 as [[]|e]; [by left|].
    right. by rewrite (Hexn e).
Qed.

(** X3: the initial detection on a companion without a mask.  Line 450
    assigns the new capture object to [shared_cap] before the device is
    tested: once the constructor returned, [shared_cap] is set whatever
    follows, the other resources being what they were, and the cleanup of
    [run] then releases it if the engine cleanup returns; if the
    constructor raises, nothing changes.  If the device does not open,
    nothing is read and the companion, the tasks and the trace are
    untouched.  A mask is cached only if the device opened, both reads (the
    one of line 459 and the one inside [update_board_mask]) gave a frame
    and a box was extracted, and it is then that box with the time of the
    update.  An exception of the first read is not caught. *)
Theorem detect_initial_board_mask_outcomes (video_capture : res unit)
    (is_opened : res bool) (set_resolution : res unit)
    (first_read : res (option Frame)) (env : Env) (held : Resources)
    (w : World) :
  current_board_mask (self w) = None ->
  let out :=
    detect_initial_board_mask video_capture is_opened set_resolution
      first_read env held w in
  (forall e : exn, video_capture = Raise e -> out = (Raise e, held, w))
  /\ (video_capture = Ret tt ->
      out.1.2 = mkResources true (mic_stream held) (pya held)
      /\ forall cenv : CleanupEnv,
           engine_pool_cleanup cenv = Ret tt ->
           CapRelease ∈ (cleanup out.1.2 cenv).2)
  /\ (video_capture = Ret tt ->
      is_opened = Ret false ->
      out = (Ret tt, mkResources true (mic_stream held) (pya held), w))
  /\ (forall mask : BoardMask,
        current_board_mask (self out.2) = Some mask ->
        video_capture = Ret tt
        /\ is_opened = Ret true
        /\ set_resolution = Ret tt
        /\ (exists frame, first_read = Ret (Some frame))
        /\ exists screenshot b,
             cap_read env = Ret (Some screenshot)
             /\ extract_bbox_from_segmentation env = Ret (Some b)
             /\ mask = mkBoardMask (coords b) (bbox_confidence b)
                         (time_now env))
  /\ (forall e : exn,
        video_capture = Ret tt ->
        is_opened = Ret true ->
        set_resolution = Ret tt ->
        first_read = Raise e ->
        out.1.1 = Raise e
        /\ out.1.2 = mkResources true (mic_stream held) (pya held)
        /\ self out.2 = self w).
Proof.
  intros Hnone. unfold detect_initial_board_mask. unfold_monad. cbv zeta.
  split; [by intros e ->|]. split; [|split; [by intros -> ->|split]].
  - intros ->. split; [done|]. intros cenv Hengine.
    unfold cleanup, cleanup_step. rewrite Hengine. cbn [shared_cap snd].
    destruct (cap_release cenv); set_solver.
  - intros mask.
    destruct video_capture as [[]|e]; simpl; try (by rewrite Hnone).
    destruct is_opened as [[]|e]; simpl; try (by rewrite Hnone).
    destruct set_resolution as [[]|e]; simpl; try (by rewrite Hnone).
    destruct first_read as [[frame|]|e]; simpl; try (by rewrite Hnone).
    set (w1 := mkWorld (self w) (tasks w) (trace w ++ [CapRead])).
    destruct (update_board_mask_cases env frame w1)
      as (_ & _ & [Hself|[Hself|(s & b & Hcap & Hbox & Hself)]]);
      rewrite Hself; simpl; try done; try (by rewrite Hnone).
    intros Hmask. injection Hmask as <-.
    split; [done|]. split; [done|]. split; [done|].
    split; [by exists frame|]. by exists s, b.
  - by intros e -> -> -> ->.
Qed.

Lemma detect_initial_board_mask_outcomes_witness :
  let env := sample_env (Ret (Some sample_frame)) (Ret None) (Ret START_FEN)
               (Ret (mkConsensusResult None None)) (Ret sample_analyses) in
  detect_initial_board_mask (Ret tt) (Ret false) (Ret tt)
    (Ret (Some sample_frame)) env (mkResources false true true)
    (initial_world false true)
  = (Ret tt, mkResources true true true, initial_world false true).
Proof.
  intros env.
  destruct (detect_initial_board_mask_outcomes (Ret tt) (Ret false) (Ret tt)
              (Ret (Some sample_frame)) env (mkResources false true true)
              (initial_world false true) eq_refl) as (_ & _ & Hclosed & _).
  by apply Hclosed.
Defined.

(** ** Position extraction, continued *)

(** The fallback detector in one equation: its result depends on the
    collaborators only, it is never an [Exception], and the world changes
    by the trace of the entry and of the consensus request. *)
Lemma fallback_spec (env : Env) (frame : Frame) :
  exists r : res (option string),
    (forall e, r = Raise e -> e = BaseOnly)
    /\ forall w : World,
         _fallback_full_detection env frame w
         = (r, mkWorld (self w) (tasks w)
                 (trace w ++ FallbackEntered ::
                    match save_frame_to_temp env with
                    | Ret temp_path => [ConsensusDetection temp_path 7 3]
                    | Raise _ => []
                    end)).
Proof.
  unfold _fallback_full_detection. unfold_monad. simpl.
  repeat split_match.
  all: eexists; split; [|intros w; rewrite <- ?app_assoc; reflexivity].
  all: try done; intros ? [= <-].
  all: match goal with e : exn |- _ => by destruct e end.
Qed.

(** X4: neither extraction method lets an [Exception] escape, whatever
    the collaborators raise: the fallback detector and the extraction with
    the cached mask return a position or none, or pass on an exception that
    is not an [Exception]. *)
Theorem extraction_never_raises_exception (env : Env) (frame : Frame)
    (w : World) :
  ((exists position, (_fallback_full_detection env frame w).1 = Ret position)
   \/ (_fallback_full_detection env frame w).1 = Raise BaseOnly)
  /\ ((exists position,
         (extract_fen_with_cached_mask env frame w).1 = Ret position)
      \/ (extract_fen_with_cached_mask env frame w).1 = Raise BaseOnly).
Proof.
  destruct (fallback_spec env frame) as (r & Hr & Hfb).
  assert (Hcases : (exists position, r = Ret position) \/ r = Raise BaseOnly).
  { destruct r as [position|e]; [by eauto|]. right. by rewrite (Hr e). }
  split.
  - by rewrite Hfb.
  - unfold extract_fen_with_cached_mask, try_except.
    destruct (bind get_self _ w) as [[position|e] w'] eqn:Hbody; simpl.
    + by eauto.
    + destruct (is_Exception e) eqn:He.
      * by rewrite Hfb.
      * right. by destruct e.
Qed.

(** X6: without a cached mask the extraction is the fallback detector and
    nothing else: same result, same world; the piece detector is not
    called and the consensus is requested once, not twice. *)
Theorem extraction_without_mask_is_fallback (env : Env) (frame : Frame)
    (w : World) :
  current_board_mask (self w) = None ->
  extract_fen_with_cached_mask env frame w
  = _fallback_full_detection env frame w.
Proof.
  intros Hnone.
  destruct (fallback_spec env frame) as (r & Hr & Hfb).
  unfold extract_fen_with_cached_mask. unfold_monad. rewrite Hnone.
  rewrite Hfb. destruct r as [position|e]; [done|].
  by rewrite (Hr e eq_refl).
Qed.

Lemma extraction_without_mask_is_fallback_witness :
  let env := sample_env (Ret (Some sample_frame)) (Ret (Some (pieces 32)))
               (Ret START_FEN)
               (Ret (mkConsensusResult (Some 30) (Some "8/8/8/8/8/8/8/K6k")))
               (Ret sample_analyses) in
  (extract_fen_with_cached_mask env sample_frame (initial_world false true)).1
  = Ret (Some "8/8/8/8/8/8/8/K6k").
Proof.
  intros env.
  by rewrite (extraction_without_mask_is_fallback env sample_frame
                (initial_world false true) eq_refl).
Defined.

(** X5: a position returned by the extraction is never the empty-board
    sentinel, and it is either the conversion of a detection of at least 2
    pieces (fast path) or the consensus position of at least 2 pieces
    (fallback). *)
Theorem extracted_position_origin (env : Env) (frame : Frame) (w : World)
    (fen : string) :
  (extract_fen_with_cached_mask env frame w).1 = Ret (Some fen) ->
  fen <> EMPTY_BOARD_FEN
  /\ ((exists piece_result,
         detect_pieces_direct env = Ret (Some piece_result)
         /\ (2 <= length (default [] (predictions piece_result)))%nat
         /\ pieces_to_fen_from_dimensions env = Ret fen)
      \/ (exists result,
            consensus_piece_detection env = Ret result
            /\ 2 <= default 0 (piece_count result)
            /\ consensus_fen result = Some fen)).
Proof.
  destruct (fallback_spec env frame) as (r & Hr & Hfb).
  assert (Hpos : r = Ret (Some fen) ->
                 fen <> EMPTY_BOARD_FEN
                 /\ exists result,
                      consensus_piece_detection env = Ret result
                      /\ 2 <= default 0 (piece_count result)
                      /\ consensus_fen result = Some fen).
  { intros Hr'.
    destruct (fallback_position env frame w fen) as (result & H1 & H2 & H3 & H4).
    - by rewrite Hfb.
    - split; [done|]. by exists result. }
  unfold extract_fen_with_cached_mask. unfold_monad. simpl.
  repeat first [rewrite Hfb; simpl | split_match].
  all: try done.
  all: try (intros Heq; destruct (Hpos Heq) as [Hne Hfrom]; by auto).
  all: repeat match goal with
         | H : bool_decide _ = false |- _ => apply bool_decide_eq_false in H
         end.
  all: intros [= <-]; split; [done|].
  all: left; eexists; split; [reflexivity|]; split; [lia|done].
Qed.

Lemma extracted_position_origin_witness :
  let env := sample_env (Ret (Some sample_frame)) (Ret (Some (pieces 32)))
               (Ret START_FEN)
               (Ret (mkConsensusResult (Some 30) (Some "8/8/8/8/8/8/8/K6k")))
               (Ret sample_analyses) in
  (extract_fen_with_cached_mask env sample_frame
     (sample_world None false)).1 = Ret (Some START_FEN)
  /\ START_FEN <> EMPTY_BOARD_FEN.
Proof.
  intros env.
  assert (Hext : (extract_fen_with_cached_mask env sample_frame
                    (sample_world None false)).1 = Ret (Some START_FEN))
    by (vm_compute; reflexivity).
  split; [exact Hext|].
  by destruct (extracted_position_origin env sample_frame
                 (sample_world None false) START_FEN Hext).
Defined.

(** X7: one extraction costs at most one call to the piece detector and
    enters the fallback detector at most once, so it makes at most one
    consensus request, whatever fails on the way. *)
Theorem extraction_calls_each_detector_at_most_once (env : Env)
    (frame : Frame) (w : World) :
  let out := extract_fen_with_cached_mask env frame w in
  (detector_calls out.2 <= detector_calls w + 1)%nat
  /\ (fallback_entries out.2 <= fallback_entries w + 1)%nat
  /\ (length (consensus_calls out.2) <= length (consensus_calls w) + 1)%nat.
Proof.
  destruct (fallback_spec env frame) as (r & Hr & Hfb).
  unfold detector_calls, fallback_entries, consensus_calls.
  unfold extract_fen_with_cached_mask. unfold_monad. simpl.
  destruct r as [position|e]; [|pose proof (Hr e eq_refl) as ->]; clear Hr.
  all: repeat first [rewrite Hfb; simpl | split_match].
  all: cbn [self tasks trace snd].
  all: rewrite ?filter_app, ?length_app.
  all: repeat
         (first [ rewrite filter_cons_True by done
                | rewrite filter_cons_False by done
                | rewrite filter_nil ]);
       simpl; lia.
Qed.

(** X8: the fast path at its best.  With a cached mask, a crop that is
    not empty, a detection of at least 2 pieces and a conversion that is
    not the sentinel (and the debug crop written, in debug mode), the
    extraction returns the converted position after exactly one detector
    call and the conversion, and never enters the fallback detector. *)
Theorem fast_path_success (env : Env) (frame : Frame) (w : World)
    (piece_result : PieceResult) (size_640 : Z * Z) (fen : string) :
  fast_path_detects env w piece_result ->
  resize_640 env = Ret size_640 ->
  (2 <= length (default [] (predictions piece_result)))%nat ->
  pieces_to_fen_from_dimensions env = Ret fen ->
  fen <> EMPTY_BOARD_FEN ->
  debug_mode (self w) = false \/ save_debug_crop env = Ret tt ->
  extract_fen_with_cached_mask env frame w
  = (Ret (Some fen),
     mkWorld (self w) (tasks w)
       (trace w ++ [DetectPieces PIECE_MODEL_ID;
                    PiecesToFen size_640.1 size_640.2 PIECE_MODEL_ID])).
Proof.
  intros (mask & size & size' & Hmask & Hcrop & Hw & Hh & Hresize' & Hdetect)
    Hresize Hcount Hfen Hne Hdebug.
  unfold extract_fen_with_cached_mask. unfold_monad. simpl.
  rewrite Hmask, Hcrop. simpl.
  rewrite !bool_decide_false by done. simpl.
  rewrite Hresize. simpl. rewrite Hdetect. simpl.
  rewrite bool_decide_false by lia. rewrite Hfen. simpl.
  rewrite bool_decide_false by done. rewrite <- app_assoc. simpl.
  destruct Hdebug as [-> | Hsave]; [done|].
  destruct (debug_mode (self w)); [|done]. by rewrite Hsave.
Qed.

Lemma fast_path_success_witness :
  let env := sample_env (Ret (Some sample_frame)) (Ret (Some (pieces 32)))
               (Ret START_FEN) (Raise OtherException) (Ret sample_analyses) in
  extract_fen_with_cached_mask env sample_frame (sample_world None false)
  = (Ret (Some START_FEN),
     mkWorld (sample_companion None false) []
       [DetectPieces PIECE_MODEL_ID; PiecesToFen 640 640 PIECE_MODEL_ID]).
Proof.
  intros env.
  apply (fast_path_success env sample_frame (sample_world None false)
           (pieces 32) (640, 640) START_FEN).
  - exists sample_mask, (600, 600), (640, 640). by repeat split.
  - reflexivity.
  - vm_compute. lia.
  - reflexivity.
  - discriminate.
  - left. reflexivity.
Defined.

(** X9: debug mode can change the answer.  When the fast path has a good
    position but writing the debug crop raises an [Exception], the position
    is dropped and the extraction answers what the fallback detector
    answers, after entering it once. *)
Theorem debug_crop_failure_falls_back (env : Env) (frame : Frame) (w : World)
    (piece_result : PieceResult) (fen : string) (e : exn) :
  fast_path_detects env w piece_result ->
  (2 <= length (default [] (predictions piece_result)))%nat ->
  pieces_to_fen_from_dimensions env = Ret fen ->
  fen <> EMPTY_BOARD_FEN ->
  debug_mode (self w) = true ->
  save_debug_crop env = Raise e ->
  is_Exception e = true ->
  let out := extract_fen_with_cached_mask env frame w in
  out.1 = (_fallback_full_detection env frame w).1
  /\ fallback_entries out.2 = (fallback_entries w + 1)%nat.
Proof.
  intros (mask & size & size' & Hmask & Hcrop & Hw & Hh & Hresize & Hdetect)
    Hcount Hfen Hne Hdebug Hsave He.
  destruct (fallback_spec env frame) as (r & Hr & Hfb).
  unfold fallback_entries.
  unfold extract_fen_with_cached_mask. unfold_monad. simpl.
  rewrite Hmask, Hcrop. simpl.
  rewrite !bool_decide_false by done. simpl.
  rewrite Hresize. simpl. rewrite Hdetect. simpl.
  rewrite bool_decide_false by lia. rewrite Hfen. simpl.
  rewrite bool_decide_false by done. rewrite Hdebug, Hsave. simpl.
  rewrite He. rewrite !Hfb. simpl. split; [done|].
  rewrite !filter_app, !length_app.
  destruct (save_frame_to_temp env).
  all: repeat
         (first [ rewrite filter_cons_True by done
                | rewrite filter_cons_False by done
                | rewrite filter_nil ]);
       simpl; lia.
Qed.

Lemma debug_crop_failure_falls_back_witness :
  let env :=
    mkEnv (Float64 0) (Ret (Some sample_frame)) (Ret tt)
      (Ret (mkSegmentationResult None)) (Ret None)
      (fun _ => Ret (600, 600)) (Ret (640, 640)) (Ret (Some (pieces 32)))
      (Ret START_FEN) (Raise OtherException) (Ret "/tmp/frame.png")
      (Ret (mkConsensusResult (Some 1) None)) (Ret tt) (fun _ => Ret tt)
      (Ret sample_analyses) (Ret tt) (Ret "") (Ret "white")
      (fun _ => Ret (VStr "")) in
  let w := mkWorld (mkCompanion None None false [] true (Some sample_mask) true)
             [] [] in
  (extract_fen_with_cached_mask env sample_frame w).1 = Ret None.
Proof.
  intros env w.
  destruct (debug_crop_failure_falls_back env sample_frame w (pieces 32)
              START_FEN OtherException) as [Hout _].
  - exists sample_mask, (600, 600), (640, 640). by repeat split.
  - vm_compute. lia.
  - reflexivity.
  - discriminate.
  - reflexivity.
  - reflexivity.
  - reflexivity.
  - rewrite Hout. reflexivity.
Defined.

(** ** The position-change loop, continued *)

Lemma set_current_board_same (c : Companion) :
  set_current_board (current_board c) c = c.
Proof. by destruct c. Qed.

(** What the tracker does to the world: nothing, or the board change with
    the task that goes with an idle scheduler; and it raises nothing that
    [is_valid_fen] does not let through. *)
Lemma track_position_cases (env : Env) (new_fen : option string)
    (frame : Frame) (w : World) :
  let out := track_position env new_fen frame w in
  trace out.2 = trace w
  /\ (self out.2 = self w /\ tasks out.2 = tasks w
      \/ exists fen,
           new_fen = Some fen
           /\ Some fen <> current_board (self w)
           /\ out.1 = Ret tt
           /\ self out.2 = set_current_board (Some fen) (self w)
           /\ tasks out.2
              = if analyzing (self w) then tasks w
                else tasks w ++ [Created fen frame]).
Proof.
  unfold track_position, is_valid_fen, on_board_change. unfold_monad.
  destruct new_fen as [fen|]; simpl; [|by auto].
  destruct (str_truthy fen); simpl; [|by auto].
  destruct (chess_Board env fen) as [[]|[]]; simpl; try (by auto).
  case_bool_decide as Hne; simpl; [|by auto].
  split; [by destruct (analyzing (self w))|]. right. exists fen.
  by destruct (analyzing (self w)).
Qed.

(** What one turn of the loop does to the world. *)
Lemma iteration_cases (env : Env) (w : World) :
  let out := fast_fen_detection_iteration env w in
  (out.1 = Ret tt \/ out.1 = Raise BaseOnly)
  /\ (self out.2 = self w /\ tasks out.2 = tasks w
      \/ exists fen frame,
           cap_read env = Ret (Some frame)
           /\ Some fen <> current_board (self w)
           /\ self out.2 = set_current_board (Some fen) (self w)
           /\ tasks out.2
              = if analyzing (self w) then tasks w
                else tasks w ++ [Created fen frame]).
Proof.
  unfold fast_fen_detection_iteration. unfold_monad. simpl.
  destruct (current_board_mask (self w)) as [mask|]; simpl; [|by auto].
  destruct (cap_read env) as [[frame|]|e] eqn:Hcap; simpl; [|by auto|].
  2: { destruct e; simpl; auto. }
  destruct (extract_preserves_state env frame
              (mkWorld (self w) (tasks w) (trace w ++ [CapRead])))
    as [Hself Htasks].
  simpl in Hself, Htasks.
  destruct (extract_fen_with_cached_mask env frame _) as [[new_fen|e] w2];
    simpl in *.
  - destruct (track_position_cases env new_fen frame w2)
      as (_ & [[Hs Ht]|(fen & _ & Hne & Hret & Hs & Ht)]).
    + destruct (track_position env new_fen frame w2) as [[[]|e] w3];
        simpl in *.
      * split; [by left|]. left. split; congruence.
      * destruct e; simpl; (split; [by auto|]); left; split; congruence.
    + destruct (track_position env new_fen frame w2) as [[[]|e] w3];
        simpl in *; [|done].
      split; [by left|]. right. exists fen, frame.
      rewrite Hself, Htasks in *. done.
  - destruct e; simpl; (split; [by auto|]); left; split; congruence.
Qed.

(** X10: one turn of the polling loop never lets an [Exception] escape,
    so the loop goes on whatever the capture, the detectors or
    [chess.Board] raise; and it changes nothing of the companion but
    [current_board]: the mask, the stored analysis, the busy flag, the
    commentary and the watching mode are what they were. *)
Theorem polling_turn_never_crashes (env : Env) (w : World) :
  let out := fast_fen_detection_iteration env w in
  (out.1 = Ret tt \/ out.1 = Raise BaseOnly)
  /\ self out.2 = set_current_board (current_board (self out.2)) (self w).
Proof.
  destruct (iteration_cases env w)
    as (Hret & [[Hs _]|(fen & frame & _ & _ & Hs & _)]).
  all: cbv zeta; split; [done|]; rewrite Hs; simpl; try done.
  by rewrite set_current_board_same.
Qed.


(** ** The analysis scheduler, continued *)

(** X12: pushing an analysis to the dialogue session never lets an
    [Exception] escape (a failed send is only printed) and never changes the
    companion or the tasks.  It sends at most once, and what it sends
    starts with the narrative text of the analysis, "Analysis unavailable"
    when the analysis has none, followed by the screenshot when there is
    one; an analysis whose screenshot cannot be read is not sent at all. *)
Theorem send_analysis_is_safe (env : Env) (analysis : Analysis) (w : World) :
  let out := send_analysis_to_gemini env analysis w in
  let text :=
    default (VStr "Analysis unavailable") (analysis !! "formatted_for_gemini") in
  (out.1 = Ret tt \/ out.1 = Raise BaseOnly)
  /\ self out.2 = self w
  /\ tasks out.2 = tasks w
  /\ match gemini_parts analysis with
     | Ret parts =>
         trace out.2 = trace w ++ [SendClientContent parts]
         /\ (parts = [text]
             \/ exists mime_type data,
                  analysis !! "board_screenshot" = Some (VImage mime_type data)
                  /\ parts = [text; VImage mime_type data])
     | Raise _ => trace out.2 = trace w
     end.
Proof.
  unfold send_analysis_to_gemini, gemini_parts. unfold_monad. cbv zeta.
  destruct (analysis !! "board_screenshot") as [[s|mime_type data]|]; simpl.
  - destruct (str_truthy s); simpl.
    + repeat split; by auto.
    + destruct (send_client_content env) as [[]|[]]; simpl;
        repeat split; by auto.
  - destruct (send_client_content env) as [[]|[]]; simpl;
      repeat split; eauto 10.
  - destruct (send_client_content env) as [[]|[]]; simpl;
      repeat split; by auto.
Qed.

(** What [analyze_new_position] leaves as it found: the board, the mask,
    the commentary, the watching mode and the tasks. *)
Lemma analyze_keeps_board (env : Env) (fen : string) (frame : Frame)
    (w : World) :
  let out := analyze_new_position env fen frame w in
  current_board (self out.2) = current_board (self w)
  /\ commentary_buffer (self out.2) = commentary_buffer (self w)
  /\ current_board_mask (self out.2) = current_board_mask (self w)
  /\ watching_mode (self out.2) = watching_mode (self w)
  /\ tasks out.2 = tasks w.
Proof.
  unfold analyze_new_position, send_analysis_to_gemini. unfold_monad.
  cbv zeta. destruct (analyzing (self w)); simpl; [done|].
  repeat split_match; done.
Qed.



(** X17: from the camera to the stored analysis.  When a turn of the
    polling loop changes the board while the scheduler is idle, the task
    it creates, once run with an analyzer that returns, calls the analyzer
    with the new position, the frame of that turn and the commentary so
    far, stores the answer, leaves the busy flag down and the new board in
    place. *)
Theorem polling_turn_then_analysis (env env' : Env) (w : World)
    (analyses : Analyses) :
  analyzing (self w) = false ->
  analyze_both_perspectives env' = Ret analyses ->
  let out := fast_fen_detection_iteration env w in
  current_board (self out.2) <> current_board (self w) ->
  exists fen frame,
    tasks out.2 = tasks w ++ [Created fen frame]
    /\ let done := analyze_new_position env' fen frame out.2 in
       current_board (self done.2) = Some fen
       /\ current_analysis (self done.2) = Some analyses
       /\ analyzing (self done.2) = false
       /\ analyzer_calls done.2
          = analyzer_calls out.2
            ++ [AnalyzeBothPerspectives fen frame
                  (commentary_buffer (self w))].
Proof.
  intros Hidle Hanswer out Hchanged.
  destruct (iteration_cases env w)
    as (_ & [[Hs _]|(fen & frame & _ & _ & Hs & Ht)]);
    fold out in Hs; [by rewrite Hs in Hchanged|].
  fold out in Ht. rewrite Hidle in Ht.
  exists fen, frame. split; [done|]. cbv zeta.
  assert (Hidle' : analyzing (self out.2) = false) by (by rewrite Hs).
  destruct (analyze_keeps_board env' fen frame out.2) as (Hboard & _).
  destruct (analyze_idle_effect env' fen frame out.2 Hidle')
    as (Hreset & _ & _ & Hcalls).
  split; [by rewrite Hboard, Hs|].
  split; [by apply analyze_success_stores_analysis|].
  split; [done|]. rewrite Hcalls. by rewrite Hs.
Qed.

Lemma polling_turn_then_analysis_witness :
  let env := sample_env (Ret (Some sample_frame)) (Ret (Some (pieces 32)))
               (Ret START_FEN)
               (Ret (mkConsensusResult (Some 32) (Some START_FEN)))
               (Ret sample_analyses) in
  let w := sample_world None false in
  exists fen frame,
    tasks (fast_fen_detection_iteration env w).2 = [Created fen frame].
Proof.
  intros env w.
  destruct (polling_turn_then_analysis env env w sample_analyses eq_refl
              eq_refl) as (fen & frame & Htasks & _).
  - vm_compute. discriminate.
  - by exists fen, frame.
Defined.

(** ** The tool calls, continued *)

Lemma set_watching_mode_same (c : Companion) :
  set_watching_mode (watching_mode c) c = c.
Proof. by destruct c. Qed.

(** What handling one function call does: only the watching mode can
    change, and it does so for the two watching tools only. *)
Lemma handle_function_call_frame (env : Env) (fc : FunctionCall) (w : World) :
  let out := handle_function_call env fc w in
  self out.2
  = set_watching_mode
      (if bool_decide (fc_name fc = "start_watching_mode") then true
       else if bool_decide (fc_name fc = "stop_watching_mode") then false
       else watching_mode (self w)) (self w)
  /\ tasks out.2 = tasks w
  /\ analyzer_calls out.2 = analyzer_calls w.
Proof.
  destruct (decide (fc_name fc = "analyze_current_position")) as [Hname|Hname].
  - cbv zeta. rewrite Hname. simpl.
    destruct (fc_args fc) as [args|] eqn:Hargs.
    2: { rewrite (analyze_without_args env fc w Hname Hargs). simpl.
         by rewrite set_watching_mode_same. }
    destruct (analyze_current_position_spec env fc w args Hname Hargs)
      as (calls & Hcalls & ->).
    destruct (current_analysis (self w)) as [stored|];
      [|by rewrite set_watching_mode_same].
    destruct (dict_truthy stored); [|by rewrite set_watching_mode_same].
    cbv zeta.
    destruct (dict_truthy _); simpl; rewrite set_watching_mode_same;
      repeat split; unfold analyzer_calls; simpl;
      rewrite ?app_assoc, ?filter_app, ?Hcalls, ?app_nil_r;
      rewrite ?filter_cons_False by done; by rewrite ?filter_nil, ?app_nil_r.
  - unfold handle_function_call. unfold_monad. cbv zeta.
    rewrite (bool_decide_false _ Hname).
    repeat case_bool_decide; simpl; repeat split.
    by rewrite set_watching_mode_same.
Qed.

(** The same for a list of function calls, with the names of the
    responses when all are handled. *)
Lemma handle_function_calls_frame (calls : list (Env * FunctionCall)) :
  forall w : World,
    let out := handle_function_calls calls w in
    current_board (self out.2) = current_board (self w)
    /\ current_analysis (self out.2) = current_analysis (self w)
    /\ analyzing (self out.2) = analyzing (self w)
    /\ commentary_buffer (self out.2) = commentary_buffer (self w)
    /\ current_board_mask (self out.2) = current_board_mask (self w)
    /\ tasks out.2 = tasks w
    /\ analyzer_calls out.2 = analyzer_calls w
    /\ forall function_responses,
         out.1 = Ret function_responses ->
         map fst function_responses = map (fun c => fc_name c.2) calls
         /\ watching_mode (self out.2)
            = fold_left
                (fun (watching : bool) (c : Env * FunctionCall) =>
                   if bool_decide (fc_name c.2 = "start_watching_mode")
                   then true
                   else if bool_decide (fc_name c.2 = "stop_watching_mode")
                        then false
                        else watching)
                calls (watching_mode (self w)).
Proof.
  induction calls as [|[env fc] calls IH]; intros w; cbv zeta.
  - simpl. do 7 (split; [done|]). by intros ? [= <-].
  - cbn [handle_function_calls]. unfold bind, ret.
    destruct (handle_function_call_frame env fc w) as (Hs & Ht & Hc).
    destruct (handle_function_call env fc w) as [[result|e] w1]; simpl in *.
    + destruct (IH w1) as (H1 & H2 & H3 & H4 & H5 & H6 & H7 & H8).
      destruct (handle_function_calls calls w1) as [[responses|e] w2];
        simpl in *; rewrite Hs in *; simpl in *.
      * do 7 (split; [congruence|]).
        intros ? [= <-]. destruct (H8 responses eq_refl) as [Hnames Hwatch].
        simpl. by rewrite Hnames, Hwatch.
      * do 7 (split; [congruence|]). done.
    + rewrite Hs. simpl. by do 7 (split; [done|]).
Qed.

(** X14: a tool call, whatever function calls it carries and whatever
    the collaborators answer, never touches the board, the stored
    analysis, the busy flag, the commentary or the mask, creates no task
    and never calls the analyzer's analysis: the watching mode is the only
    thing it can change. *)
Theorem tool_call_changes_only_watching_mode (send_tool_response : res unit)
    (calls : list (Env * FunctionCall)) (w : World) :
  let out := handle_tool_call send_tool_response calls w in
  self out.2 = set_watching_mode (watching_mode (self out.2)) (self w)
  /\ tasks out.2 = tasks w
  /\ analyzer_calls out.2 = analyzer_calls w.
Proof.
  unfold handle_tool_call. unfold bind. cbv zeta.
  destruct (handle_function_calls_frame calls w)
    as (H1 & H2 & H3 & H4 & H5 & H6 & H7 & _).
  assert (Hself : forall w' : World,
            current_board (self w') = current_board (self w) ->
            current_analysis (self w') = current_analysis (self w) ->
            analyzing (self w') = analyzing (self w) ->
            commentary_buffer (self w') = commentary_buffer (self w) ->
            current_board_mask (self w') = current_board_mask (self w) ->
            debug_mode (self w') = debug_mode (self w) ->
            self w' = set_watching_mode (watching_mode (self w')) (self w)).
  { intros w'. destruct (self w'), (self w). simpl. by intros -> -> -> -> -> ->. }
  assert (Hdebug : forall (cs : list (Env * FunctionCall)) (w0 : World),
            debug_mode (self (handle_function_calls cs w0).2)
            = debug_mode (self w0)).
  { induction cs as [|[env fc] cs IH]; intros w0; [done|].
    cbn [handle_function_calls]. unfold bind, ret.
    destruct (handle_function_call_frame env fc w0) as (Hs & _).
    destruct (handle_function_call env fc w0) as [[result|e] w1]; simpl in *.
    - specialize (IH w1).
      destruct (handle_function_calls cs w1) as [[responses|e] w2];
        simpl in *; by rewrite IH, Hs.
    - by rewrite Hs. }
  specialize (Hdebug calls w).
  destruct (handle_function_calls calls w) as [[[|r responses]|e] w1];
    simpl in *.
  - repeat split; try done. by apply Hself.
  - unfold call. simpl. repeat split; try done; [by apply Hself|].
    unfold analyzer_calls in *. simpl. by rewrite filter_snoc_false.
  - repeat split; try done. by apply Hself.
Qed.

(** X15: when every function call of a tool call is handled, the
    responses come in the order of the calls, one per call and under the
    call's name, and the watching mode is the one the last start or stop
    call asked for (the previous one when there is none). *)
Theorem tool_responses_follow_calls (calls : list (Env * FunctionCall))
    (w : World) (function_responses : list (string * ToolResult)) :
  (handle_function_calls calls w).1 = Ret function_responses ->
  map fst function_responses = map (fun c => fc_name c.2) calls
  /\ length function_responses = length calls
  /\ watching_mode (self (handle_function_calls calls w).2)
     = fold_left
         (fun (watching : bool) (c : Env * FunctionCall) =>
            if bool_decide (fc_name c.2 = "start_watching_mode") then true
            else if bool_decide (fc_name c.2 = "stop_watching_mode")
                 then false
                 else watching)
         calls (watching_mode (self w)).
Proof.
  intros Hret.
  destruct (handle_function_calls_frame calls w)
    as (_ & _ & _ & _ & _ & _ & _ & Hresp).
  destruct (Hresp function_responses Hret) as [Hnames Hwatch].
  split; [done|]. split; [|done].
  by rewrite <- (length_map fst), Hnames, length_map.
Qed.

Lemma tool_responses_follow_calls_witness :
  let env := sample_env (Ret None) (Ret None) (Ret START_FEN)
               (Ret (mkConsensusResult None None)) (Ret sample_analyses) in
  let calls := [(env, mkFunctionCall "stop_watching_mode" None);
                (env, mkFunctionCall "pause_playback" None)] in
  map fst [(("stop_watching_mode" : string), WatchingModeStopped);
           (("pause_playback" : string), UnknownFunction "pause_playback")]
  = map (fun c => fc_name c.2) calls
  /\ watching_mode
       (self (handle_function_calls calls (sample_world None false)).2)
     = false.
Proof.
  intros env calls.
  destruct (tool_responses_follow_calls calls (sample_world None false)
              [("stop_watching_mode", WatchingModeStopped);
               ("pause_playback", UnknownFunction "pause_playback")]
              eq_refl) as (Hnames & _ & Hwatch).
  split; [exact Hnames|]. rewrite Hwatch. reflexivity.
Defined.

(** Handling one function call raises for a position query only: one
    without arguments (the [AttributeError] of line 932), or one whose
    narrative formatter raised. *)
Lemma handle_function_call_raises (env : Env) (fc : FunctionCall) (w : World)
    (e : exn) :
  (handle_function_call env fc w).1 = Raise e ->
  fc_name fc = "analyze_current_position"
  /\ (fc_args fc = None /\ e = OtherException
      \/ exists args stored entry,
           fc_args fc = Some args
           /\ current_analysis (self w) = Some stored
           /\ (exists key, stored !! key = Some entry)
           /\ format_for_live_model env
                (<["user_query" :=
                     VStr (default "Analyze the current chess position"
                             (args !! "query"))]> entry)
              = Raise e).
Proof.
  destruct (decide (fc_name fc = "analyze_current_position")) as [Hname|Hname].
  - intros Hraise. split; [done|]. revert Hraise.
    destruct (fc_args fc) as [args|] eqn:Hargs.
    2: { rewrite (analyze_without_args env fc w Hname Hargs).
         intros [= <-]. by left. }
    destruct (analyze_current_position_spec env fc w args Hname Hargs)
      as (calls & _ & ->).
    destruct (current_analysis (self w)) as [stored|]; [|done].
    destruct (dict_truthy stored); [|done]. cbv zeta.
    destruct (dict_truthy _) eqn:Htruthy; [|done]. cbn [fst].
    destruct (format_for_live_model env _) as [formatted|e'] eqn:Hformat;
      [done|].
    intros [= <-]. right. exists args, stored.
    destruct (stored !! inferred_color env) as [entry|] eqn:Hcolor;
      simpl in *.
    + exists entry. repeat split; [by exists (inferred_color env)|done].
    + destruct (stored !! "white") as [entry|] eqn:Hwhite; simpl in *.
      * exists entry. repeat split; [by exists "white"|done].
      * by vm_compute in Htruthy.
  - unfold handle_function_call. rewrite (bool_decide_false _ Hname).
    unfold_monad. by repeat case_bool_decide.
Qed.

(** X16: the response to a tool call.  A tool call without function calls
    sends nothing and changes nothing.  When all its function calls are
    handled, exactly one response message is sent, last, carrying one
    response per call, and the outcome is that of the send.  When handling
    fails, no response is sent and the exception leaves [handle_tool_call];
    the failure comes from a position query of the tool call, either one
    without arguments (line 932 reads [fc.args.get] outside any [try]) or
    one whose narrative formatter raised on an entry of the stored analysis
    carrying the caller's query.  A position query without arguments at the
    head of a tool call does fail so, with nothing called and nothing
    changed. *)
Theorem tool_response_sent_once (send_tool_response : res unit)
    (calls : list (Env * FunctionCall)) (w : World) :
  let handled := handle_function_calls calls w in
  let out := handle_tool_call send_tool_response calls w in
  (calls = [] -> out = (Ret tt, w))
  /\ (forall function_responses,
        calls <> [] ->
        handled.1 = Ret function_responses ->
        length function_responses = length calls
        /\ out
           = (send_tool_response,
              mkWorld (self handled.2) (tasks handled.2)
                (trace handled.2 ++ [SendToolResponse function_responses])))
  /\ (forall e : exn,
        handled.1 = Raise e ->
        out = (Raise e, handled.2)
        /\ exists env fc,
             (env, fc) ∈ calls
             /\ fc_name fc = "analyze_current_position"
             /\ (fc_args fc = None /\ e = OtherException
                 \/ exists args stored entry,
                      fc_args fc = Some args
                      /\ current_analysis (self w) = Some stored
                      /\ (exists key, stored !! key = Some entry)
                      /\ format_for_live_model env
                           (<["user_query" :=
                                VStr (default
                                        "Analyze the current chess position"
                                        (args !! "query"))]> entry)
                         = Raise e))
  /\ (forall env fc rest,
        calls = (env, fc) :: rest ->
        fc_name fc = "analyze_current_position" ->
        fc_args fc = None ->
        out = (Raise OtherException, w)).
Proof.
  cbv zeta. split; [by intros ->|]. split; [|split].
  - intros function_responses Hne Hret.
    destruct (handle_function_calls_frame calls w)
      as (_ & _ & _ & _ & _ & _ & _ & Hresp).
    destruct (Hresp function_responses Hret) as [Hnames _].
    assert (Hlen : length function_responses = length calls)
      by (by rewrite <- (length_map fst), Hnames, length_map).
    split; [done|]. unfold handle_tool_call, bind.
    destruct (handle_function_calls calls w) as [[responses|e] w1];
      simpl in *; [|done].
    injection Hret as ->.
    destruct function_responses; [|done].
    destruct calls; [done|]. simpl in Hlen. lia.
  - intros e Hraise. split.
    + unfold handle_tool_call, bind.
      destruct (handle_function_calls calls w) as [[responses|e'] w1];
        simpl in *; [done|]. by injection Hraise as ->.
    + assert (Hgen : forall w0 : World,
                current_analysis (self w0) = current_analysis (self w) ->
                (handle_function_calls calls w0).1 = Raise e ->
                exists env fc,
                  (env, fc) ∈ calls
                  /\ fc_name fc = "analyze_current_position"
                  /\ (fc_args fc = None /\ e = OtherException
                      \/ exists args stored entry,
                           fc_args fc = Some args
                           /\ current_analysis (self w) = Some stored
                           /\ (exists key, stored !! key = Some entry)
                           /\ format_for_live_model env
                                (<["user_query" :=
                                     VStr (default
                                             "Analyze the current chess position"
                                             (args !! "query"))]> entry)
                              = Raise e)); [|by apply (Hgen w)].
      clear Hraise. induction calls as [|[env fc] calls IH]; intros w0 Hsame;
        [done|].
      cbn [handle_function_calls]. unfold bind, ret.
      destruct (handle_function_call_frame env fc w0) as (Hs & _).
      destruct (handle_function_call env fc w0) as [[result|e'] w1] eqn:Hcall.
      * destruct (handle_function_calls calls w1) as [[responses|e'] w2]
          eqn:Hrest; simpl; [done|].
        intros [= ->].
        destruct (IH w1) as (env' & fc' & Hin & Hcause);
          [by simpl in Hs; rewrite Hs|by rewrite Hrest|].
        exists env', fc'. split; [|done]. by right.
      * simpl. intros [= ->].
        destruct (handle_function_call_raises env fc w0 e)
          as (Hname & Hcause); [by rewrite Hcall|].
        exists env, fc. split; [by left|]. split; [done|].
        by rewrite Hsame in Hcause.
  - intros env fc rest -> Hname Hargs.
    unfold handle_tool_call. cbn [handle_function_calls]. unfold bind.
    by rewrite (analyze_without_args env fc w Hname Hargs).
Qed.

Lemma tool_response_sent_once_witness :
  let env := sample_env (Ret None) (Ret None) (Ret START_FEN)
               (Ret (mkConsensusResult None None)) (Ret sample_analyses) in
  let calls := [(env, mkFunctionCall "start_watching_mode" None)] in
  let query := [(env, mkFunctionCall "analyze_current_position" None)] in
  handle_tool_call (Ret tt) calls (sample_world None false)
  = (Ret tt,
     mkWorld (sample_companion None false) []
       [SendToolResponse [("start_watching_mode", WatchingModeStarted)]])
  /\ handle_tool_call (Ret tt) query (sample_world None false)
     = (Raise OtherException, sample_world None false).
Proof.
  intros env calls query. split.
  - destruct (tool_response_sent_once (Ret tt) calls
                (sample_world None false)) as (_ & Hsent & _).
    destruct (Hsent [("start_watching_mode", WatchingModeStarted)])
      as [_ Hout]; [done|reflexivity|].
    rewrite Hout. reflexivity.
  - destruct (tool_response_sent_once (Ret tt) query
                (sample_world None false)) as (_ & _ & _ & Hfails).
    by apply (Hfails env (mkFunctionCall "analyze_current_position" None) []).
Defined.

(** ** The event loop, continued *)

(** What one action does to the board and to the commentary. *)
Lemma step_board_and_buffer (a : action) (w w' : World) :
  step a w = Some w' ->
  current_board (self w')
  = match a with
    | BoardChange new_fen _ => Some new_fen
    | _ => current_board (self w)
    end
  /\ commentary_buffer (self w')
     = match a with
       | TranscriptArrives line =>
           append_commentary (commentary_buffer (self w)) line
       | _ => commentary_buffer (self w)
       end.
Proof.
  intros Hstep. destruct a; simpl in Hstep.
  - rewrite on_board_change_effect in Hstep. by injection Hstep as <-.
  - by split_step Hstep.
  - by split_step Hstep.
  - by split_step Hstep.
  - by injection Hstep as <-.
  - by injection Hstep as <-.
  - by injection Hstep as <-.
Qed.

(** X21: [current_board] is always the position of the last board change
    the loop has run, whether the scheduler was busy or not and whatever
    the tasks did in between; before the first board change it is what it
    was. *)
Theorem board_is_last_reported_position (schedule : list action)
    (w0 w : World) :
  run schedule w0 = Some w ->
  current_board (self w)
  = match last (board_changes schedule) with
    | Some (fen, _) => Some fen
    | None => current_board (self w0)
    end.
Proof.
  revert w0. induction schedule as [|a schedule IH]; intros w0 Hrun;
    simpl in Hrun.
  - by injection Hrun as <-.
  - destruct (step a w0) as [w1|] eqn:Hstep; [|done].
    destruct (step_board_and_buffer a w0 w1 Hstep) as [Hboard _].
    rewrite (IH w1 Hrun), Hboard.
    destruct a; simpl; try done.
    rewrite last_cons. by destruct (last (board_changes schedule)) as [[]|].
Qed.

Lemma board_is_last_reported_position_witness :
  let schedule := [BoardChange START_FEN sample_frame; TaskStarts 0;
                   BoardChange "8/8/8/8/8/8/8/K6k" sample_frame] in
  exists w : World,
    run schedule (initial_world false true) = Some w
    /\ current_board (self w) = Some "8/8/8/8/8/8/8/K6k".
Proof.
  intros schedule.
  destruct (run schedule (initial_world false true)) as [w|] eqn:Hrun;
    [|by vm_compute in Hrun].
  exists w. split; [done|].
  by rewrite (board_is_last_reported_position schedule
                (initial_world false true) w Hrun).
Defined.

Lemma fold_append_commentary (lines : list string) :
  forall buffer : list string,
    (length buffer <= 10)%nat ->
    fold_left append_commentary lines buffer = py_last 10 (buffer ++ lines).
Proof.
  induction lines as [|line lines IH]; intros buffer Hlen; simpl.
  - rewrite app_nil_r. symmetry. by apply py_last_short.
  - rewrite IH.
    + rewrite append_commentary_py_last, py_last_app.
      by rewrite <- app_assoc.
    + rewrite append_commentary_py_last, py_last_length. lia.
Qed.

(** X18: across any run of the event loop, the commentary buffer is the
    last 10 of the transcript lines that arrived, in arrival order (all of
    them when there are fewer): board changes and analyses, finished or
    failed, never clear or reorder it. *)
Theorem commentary_survives_board_changes (schedule : list action)
    (debug watching : bool) (w : World) :
  run schedule (initial_world debug watching) = Some w ->
  commentary_buffer (self w) = py_last 10 (transcript_lines schedule)
  /\ (length (commentary_buffer (self w)) <= 10)%nat.
Proof.
  intros Hrun.
  assert (Hfold : forall (s : list action) (w0 w1 : World),
            run s w0 = Some w1 ->
            commentary_buffer (self w1)
            = fold_left append_commentary (transcript_lines s)
                (commentary_buffer (self w0))).
  { induction s as [|a s IH]; intros w0 w1 Hs; simpl in Hs.
    - by injection Hs as <-.
    - destruct (step a w0) as [w2|] eqn:Hstep; [|done].
      destruct (step_board_and_buffer a w0 w2 Hstep) as [_ Hbuffer].
      rewrite (IH w2 w1 Hs), Hbuffer. by destruct a. }
  rewrite (Hfold schedule _ w Hrun). simpl.
  rewrite fold_append_commentary by (simpl; lia). simpl.
  split; [done|]. rewrite py_last_length. lia.
Qed.

Lemma commentary_survives_board_changes_witness :
  let schedule := [TranscriptArrives "e4 is played";
                   BoardChange START_FEN sample_frame;
                   TranscriptArrives "a quiet reply"] in
  exists w : World,
    run schedule (initial_world false true) = Some w
    /\ commentary_buffer (self w) = ["e4 is played"; "a quiet reply"].
Proof.
  intros schedule.
  destruct (run schedule (initial_world false true)) as [w|] eqn:Hrun;
    [|by vm_compute in Hrun].
  exists w. split; [done|].
  by destruct (commentary_survives_board_changes schedule false true w Hrun)
    as [-> _].
Defined.

(** Letting the tasks go on always ends them, whatever the collaborators
    answer: each action of [drain] is enabled for the first task and brings
    the end nearer. *)
Lemma tasks_drain (analyzer_answers : nat -> res Analyses)
    (send_answers : nat -> res unit) (n : nat) :
  forall w : World,
    (steps_left (tasks w) <= n)%nat ->
    exists w' : World,
      run (drain analyzer_answers send_answers n w) w = Some w'
      /\ tasks w' = []
      /\ current_board (self w') = current_board (self w)
      /\ (current_analysis (self w') = current_analysis (self w)
          \/ exists (m : nat) (analyses : Analyses),
               (m < n)%nat
               /\ analyzer_answers m = Ret analyses
               /\ current_analysis (self w') = Some analyses).
Proof.
  induction n as [|n IH]; intros w Hleft.
  - destruct (tasks w) as [|t ts] eqn:Htasks.
    + exists w. simpl. repeat split; try done. by left.
    + unfold steps_left in Hleft. simpl in Hleft. destruct t; lia.
  - destruct (tasks w) as [|t ts] eqn:Htasks.
    + exists w. simpl. rewrite Htasks. simpl. repeat split; try done. by left.
    + set (a := advance_first (analyzer_answers n) (send_answers n) t).
      assert (Hnext : exists w1,
                step a w = Some w1
                /\ (steps_left (tasks w1) <= n)%nat
                /\ current_board (self w1) = current_board (self w)
                /\ (current_analysis (self w1) = current_analysis (self w)
                    \/ exists analyses,
                         analyzer_answers n = Ret analyses
                         /\ current_analysis (self w1) = Some analyses)).
      { unfold steps_left in *. simpl in Hleft. subst a.
        destruct t as [fen frame| |]; simpl; rewrite Htasks; simpl.
        - destruct (analyzing (self w)); eexists; (split; [reflexivity|]);
            simpl; rewrite ?Htasks; simpl; (split; [lia|]);
            (split; [done|by left]).
        - destruct (analyzer_answers n) as [analyses|e].
          + destruct (watching_mode (self w));
              [destruct (analyses !! "white") as [white|];
               [destruct (gemini_parts white)|]|];
              eexists; (split; [reflexivity|]); simpl; rewrite ?Htasks; simpl;
              (split; [lia|]); (split; [done|]); right; by exists analyses.
          + eexists. split; [reflexivity|]. simpl. rewrite Htasks. simpl.
            split; [lia|]. split; [done|by left].
        - eexists. split; [reflexivity|]. simpl. rewrite Htasks. simpl.
          split; [lia|]. split; [done|by left]. }
      destruct Hnext as (w1 & Hstep & Hleft1 & Hboard & Hanalysis).
      destruct (IH w1 Hleft1) as (w' & Hrun & Hempty & Hb & Ha).
      exists w'. cbn [drain]. rewrite Htasks. cbv zeta. fold a.
      rewrite Hstep. cbn [run]. rewrite Hstep.
      split; [done|]. split; [done|]. split; [congruence|].
      destruct Ha as [Ha|(m & analyses & Hm & Hanswer & Ha)].
      * destruct Hanalysis as [Hsame|(analyses & Hanswer & Hstored)].
        -- left. congruence.
        -- right. exists n, analyses. split; [lia|]. split; [done|congruence].
      * right. exists m, analyses. split; [lia|done].
Qed.

(** X19: the scheduler cannot stay busy by itself.  From every world the
    loop can reach, letting every pending task go on, the first one first,
    ends with no task left and the busy flag down, whatever the analyzer
    and the dialogue session answer on the way (an analysis, or any
    exception): the actions of [drain] are all enabled.  The board is what
    it was.  The stored analysis is what it was, or one the analyzer
    answered on the way; it is what it was when every answer of the
    analyzer is an exception. *)
Theorem scheduler_always_recovers (schedule : list action)
    (debug watching : bool) (w : World)
    (analyzer_answers : nat -> res Analyses)
    (send_answers : nat -> res unit) :
  run schedule (initial_world debug watching) = Some w ->
  exists w' : World,
    run (drain analyzer_answers send_answers (steps_left (tasks w)) w) w
    = Some w'
    /\ tasks w' = []
    /\ analyzing (self w') = false
    /\ current_board (self w') = current_board (self w)
    /\ (current_analysis (self w') = current_analysis (self w)
        \/ exists (m : nat) (analyses : Analyses),
             (m < steps_left (tasks w))%nat
             /\ analyzer_answers m = Ret analyses
             /\ current_analysis (self w') = Some analyses)
    /\ ((forall m : nat, exists e : exn, analyzer_answers m = Raise e) ->
        current_analysis (self w') = current_analysis (self w)).
Proof.
  intros Hrun.
  destruct (tasks_drain analyzer_answers send_answers
              (steps_left (tasks w)) w (le_n _))
    as (w' & Hlater & Hempty & Hboard & Hanalysis).
  exists w'. split; [done|]. split; [done|]. split; [|split; [done|split]].
  - assert (Hinv : scheduler_invariant w').
    { eapply run_keeps_invariant; [|exact Hlater].
      eapply run_keeps_invariant; [|exact Hrun]. reflexivity. }
    unfold scheduler_invariant, in_flight in Hinv. rewrite Hempty in Hinv.
    by destruct (analyzing (self w')).
  - done.
  - intros Hraise.
    destruct Hanalysis as [Hsame|(m & analyses & _ & Hanswer & _)]; [done|].
    destruct (Hraise m) as [e He]. congruence.
Qed.

Lemma scheduler_always_recovers_witness :
  let schedule := [BoardChange START_FEN sample_frame; TaskStarts 0;
                   BoardChange "8/8/8/8/8/8/8/K6k" sample_frame] in
  let analyzer_answers := fun _ : nat => Ret sample_analyses in
  let send_answers := fun _ : nat => Raise OtherException in
  exists w w',
    run schedule (initial_world false true) = Some w
    /\ analyzing (self w) = true
    /\ run (drain analyzer_answers send_answers (steps_left (tasks w)) w) w
       = Some w'
    /\ tasks w' = []
    /\ analyzing (self w') = false.
Proof.
  intros schedule analyzer_answers send_answers.
  destruct (run schedule (initial_world false true)) as [w|] eqn:Hrun;
    [|by vm_compute in Hrun].
  destruct (scheduler_always_recovers schedule false true w analyzer_answers
              send_answers Hrun)
    as (w' & Hlater & Hempty & Hidle & _).
  exists w, w'. repeat split; try done.
  vm_compute in Hrun. by injection Hrun as <-.
Defined.

Lemma analyzed_snoc (tr : list event) (ev : event) :
  analyzed (tr ++ [ev])
  = analyzed tr ++ match ev with
                   | AnalyzeBothPerspectives fen frame _ => [(fen, frame)]
                   | _ => []
                   end.
Proof. unfold analyzed. rewrite omap_app. by destruct ev. Qed.

(** The invariant behind X20, with the reported positions [reported]:
    every created task and every analyzer call is for a reported position,
    and calls and waiting tasks together are no more than the reports. *)
Lemma step_keeps_provenance (a : action) (w w' : World)
    (reported : list (string * Frame)) :
  step a w = Some w' ->
  (forall fen frame, Created fen frame ∈ tasks w -> (fen, frame) ∈ reported) ->
  (forall p, p ∈ analyzed (trace w) -> p ∈ reported) ->
  (length (analyzed (trace w)) + length (tasks w)
   <= length reported + in_flight w)%nat ->
  (forall fen frame,
     Created fen frame ∈ tasks w' ->
     (fen, frame) ∈ reported ++ board_changes [a])
  /\ (forall p, p ∈ analyzed (trace w') -> p ∈ reported ++ board_changes [a])
  /\ (length (analyzed (trace w')) + length (tasks w')
      <= length (reported ++ board_changes [a]) + in_flight w')%nat.
Proof.
  intros Hstep Hcreated Hanalyzed Hcount. unfold in_flight in *.
  destruct a as [new_fen frame|i|i answer|i answer|line|b|mask];
    simpl in Hstep.
  - rewrite on_board_change_effect in Hstep. injection Hstep as <-. simpl.
    rewrite length_app. simpl. split; [|split].
    + intros fen fr Hin. apply elem_of_app.
      destruct (analyzing (self w)); [left; by apply Hcreated|].
      apply elem_of_app in Hin as [Hin|Hin]; [left; by apply Hcreated|].
      right. apply list_elem_of_singleton in Hin. injection Hin as -> ->.
      by apply list_elem_of_singleton.
    + intros p Hin. apply elem_of_app. left. by apply Hanalyzed.
    + destruct (analyzing (self w)); [lia|].
      rewrite flying_app, length_app. simpl. lia.
  - destruct (tasks w !! i) as [[fen frame| |]|] eqn:Hi; try done.
    pose proof (flying_delete _ _ _ Hi) as Hdel.
    pose proof (flying_insert _ _ _ AwaitingAnalyzer Hi) as Hins.
    pose proof (length_delete (tasks w) i (mk_is_Some _ _ Hi)) as Hlen.
    pose proof (lookup_lt_Some _ _ _ Hi) as Hlt.
    assert (Hfrom : (fen, frame) ∈ reported).
    { apply Hcreated. apply list_elem_of_lookup. by exists i. }
    unfold weight in *. simpl in *. rewrite app_nil_r.
    destruct (analyzing (self w)); injection Hstep as <-; simpl.
    + split; [|split; [done|lia]].
      intros f fr Hin. apply Hcreated. by eapply list_elem_of_delete_inv.
    + rewrite analyzed_snoc, length_app, length_insert. simpl.
      split; [|split; [|lia]].
      * intros f fr Hin. apply list_elem_of_lookup in Hin as [j Hj].
        destruct (decide (i = j)) as [->|Hne].
        -- rewrite list_lookup_insert_eq in Hj by done. done.
        -- rewrite list_lookup_insert_ne in Hj by done.
           apply Hcreated. apply list_elem_of_lookup. by exists j.
      * intros p Hin. apply elem_of_app in Hin as [Hin|Hin];
          [by apply Hanalyzed|].
        apply list_elem_of_singleton in Hin. by subst p.
  - destruct (tasks w !! i) as [[fen frame| |]|] eqn:Hi; try done.
    pose proof (flying_delete _ _ _ Hi) as Hdel.
    pose proof (flying_insert _ _ _ AwaitingSend Hi) as Hins.
    pose proof (length_delete (tasks w) i (mk_is_Some _ _ Hi)) as Hlen.
    pose proof (lookup_lt_Some _ _ _ Hi) as Hlt.
    unfold weight in *. simpl in *. rewrite app_nil_r.
    assert (Hfinish : forall c : Companion,
              (forall fen frame,
                 Created fen frame ∈ tasks (finish_task i c w) ->
                 (fen, frame) ∈ reported)
              /\ (forall p,
                    p ∈ analyzed (trace (finish_task i c w)) -> p ∈ reported)
              /\ (length (analyzed (trace (finish_task i c w)))
                  + length (tasks (finish_task i c w))
                  <= length reported
                     + length (filter (fun t => is_in_flight t = true)
                                 (tasks (finish_task i c w))))%nat).
    { intros c. simpl. split; [|split; [done|lia]].
      intros f fr Hin. apply Hcreated. by eapply list_elem_of_delete_inv. }
    split_step Hstep; try apply Hfinish.
    simpl. rewrite analyzed_snoc, app_nil_r, length_insert.
    split; [|split; [done|lia]].
    intros f fr Hin. apply list_elem_of_lookup in Hin as [j Hj].
    destruct (decide (i = j)) as [->|Hne].
    + rewrite list_lookup_insert_eq in Hj by done. done.
    + rewrite list_lookup_insert_ne in Hj by done.
      apply Hcreated. apply list_elem_of_lookup. by exists j.
  - destruct (tasks w !! i) as [[fen frame| |]|] eqn:Hi; try done.
    pose proof (flying_delete _ _ _ Hi) as Hdel.
    pose proof (length_delete (tasks w) i (mk_is_Some _ _ Hi)) as Hlen.
    pose proof (lookup_lt_Some _ _ _ Hi) as Hlt.
    unfold weight in *. simpl in *. rewrite app_nil_r.
    injection Hstep as <-. simpl. split; [|split; [done|lia]].
    intros f fr Hin. apply Hcreated. by eapply list_elem_of_delete_inv.
  - injection Hstep as <-. simpl. by rewrite app_nil_r.
  - injection Hstep as <-. simpl. by rewrite app_nil_r.
  - injection Hstep as <-. simpl. by rewrite app_nil_r.
Qed.

Lemma board_changes_cons (a : action) (schedule : list action) :
  board_changes (a :: schedule) = board_changes [a] ++ board_changes schedule.
Proof. by destruct a. Qed.

Lemma analyzed_length (tr : list event) :
  length (analyzed tr)
  = length (filter (fun ev => is_analyzer_call ev = true) tr).
Proof.
  induction tr as [|ev tr IH]; [done|].
  destruct ev; simpl;
    rewrite ?filter_cons_True by done; rewrite ?filter_cons_False by done;
    simpl; by rewrite ?IH.
Qed.

Lemma run_keeps_provenance (schedule : list action) :
  forall (w w' : World) (reported : list (string * Frame)),
    run schedule w = Some w' ->
    (forall fen frame, Created fen frame ∈ tasks w -> (fen, frame) ∈ reported) ->
    (forall p, p ∈ analyzed (trace w) -> p ∈ reported) ->
    (length (analyzed (trace w)) + length (tasks w)
     <= length reported + in_flight w)%nat ->
    (forall p, p ∈ analyzed (trace w') ->
               p ∈ reported ++ board_changes schedule)
    /\ (length (analyzed (trace w')) + length (tasks w')
        <= length (reported ++ board_changes schedule) + in_flight w')%nat.
Proof.
  induction schedule as [|a schedule IH];
    intros w w' reported Hrun Hcreated Hanalyzed Hcount; simpl in Hrun.
  - injection Hrun as <-. simpl. by rewrite app_nil_r.
  - destruct (step a w) as [w1|] eqn:Hstep; [|done].
    destruct (step_keeps_provenance a w w1 reported Hstep Hcreated Hanalyzed
                Hcount) as (Hcreated1 & Hanalyzed1 & Hcount1).
    rewrite board_changes_cons, app_assoc.
    by apply (IH w1 w' (reported ++ board_changes [a])).
Qed.

(** X20: the analyzer is only ever asked about positions the tracker
    reported.  In every world the loop can reach, each analyzer call in
    the trace carries the position and the frame of a board change that
    the loop ran, and there are no more analyzer calls than board
    changes: no position is analyzed without being reported, and none
    twice for one report. *)
Theorem analyzer_called_only_for_reported_positions
    (schedule : list action) (debug watching : bool) (w : World) :
  run schedule (initial_world debug watching) = Some w ->
  (forall (fen : string) (frame : Frame) (context : list string),
     AnalyzeBothPerspectives fen frame context ∈ trace w ->
     (fen, frame) ∈ board_changes schedule)
  /\ (length (analyzer_calls w) <= length (board_changes schedule))%nat.
Proof.
  intros Hrun.
  destruct (run_keeps_provenance schedule (initial_world debug watching) w []
              Hrun) as [Hanalyzed Hcount].
  - intros fen frame Hin. simpl in Hin. by apply elem_of_nil in Hin.
  - intros p Hin. simpl in Hin. by apply elem_of_nil in Hin.
  - simpl. lia.
  - simpl in Hanalyzed, Hcount. split.
    + intros fen frame context Hin. apply Hanalyzed.
      unfold analyzed. apply list_elem_of_omap.
      by exists (AnalyzeBothPerspectives fen frame context).
    + unfold analyzer_calls. rewrite <- analyzed_length.
      pose proof (length_filter (fun t => is_in_flight t = true) (tasks w))
        as Hle.
      unfold in_flight in Hcount. lia.
Qed.

Lemma analyzer_called_only_for_reported_positions_witness :
  let schedule := [BoardChange START_FEN sample_frame; TaskStarts 0;
                   BoardChange "8/8/8/8/8/8/8/K6k" sample_frame;
                   AnalyzerAnswers 0 (Raise OtherException)] in
  exists w : World,
    run schedule (initial_world false true) = Some w
    /\ (length (analyzer_calls w) <= 2)%nat.
Proof.
  intros schedule.
  destruct (run schedule (initial_world false true)) as [w|] eqn:Hrun;
    [|by vm_compute in Hrun].
  exists w. split; [done|].
  by destruct (analyzer_called_only_for_reported_positions schedule false
                 true w Hrun) as [_ Hcount].
Defined.

(** ** The commentary sessions *)

(** X22: restarting the transcription loses no commentary.  Over any
    number of audio sessions, each ending or failing after some responses,
    the buffer is what a single session over all the responses would
    leave: the last 10 finalized lines of all sessions in arrival order,
    never more than 10. *)
Theorem transcription_sessions_compose (str_strip : string -> string)
    (sessions : list (list Response)) :
  let lines := finalized_lines str_strip (concat sessions) in
  let buffer := transcribe_tv_audio str_strip [] sessions in
  buffer = _run_transcription_sync str_strip [] (concat sessions)
  /\ buffer = drop (length lines - 10) lines
  /\ (length buffer <= 10)%nat.
Proof.
  assert (Hconcat : forall (ss : list (list Response)) (b : list string),
            transcribe_tv_audio str_strip b ss
            = _run_transcription_sync str_strip b (concat ss)).
  { unfold transcribe_tv_audio, _run_transcription_sync.
    induction ss as [|s ss IH]; intros b; simpl; [done|].
    by rewrite IH, fold_left_app. }
  cbv zeta. rewrite Hconcat.
  assert (Hlen : (length (_run_transcription_sync str_strip []
                            (concat sessions)) <= 10)%nat)
    by (apply run_transcription_length; simpl; lia).
  split; [done|]. split; [|done].
  rewrite <- (py_last_short 10 (_run_transcription_sync _ _ _)) by done.
  by rewrite run_transcription_py_last.
Qed.

(** X23: only finalized speech enters the commentary.  Every line of the
    buffer is the transcript of the first alternative of the first result
    of some response, a result marked final whose transcript is not blank;
    interim results and blank transcripts never get in. *)
Theorem commentary_lines_are_final_transcripts
    (str_strip : string -> string) (responses : list Response)
    (line : string) :
  line ∈ _run_transcription_sync str_strip [] responses ->
  exists response result results' alt alternatives',
    response ∈ responses
    /\ results response = result :: results'
    /\ alternatives result = alt :: alternatives'
    /\ is_final result = true
    /\ str_strip (transcript alt) <> ""
    /\ line = transcript alt.
Proof.
  intros Hin.
  assert (Hlines : line ∈ finalized_lines str_strip responses).
  { pose proof (run_transcription_py_last str_strip responses []) as Hlast.
    rewrite py_last_short in Hlast
      by (apply run_transcription_length; simpl; lia).
    rewrite Hlast in Hin. simpl in Hin. unfold py_last in Hin.
    by eapply subseteq_drop. }
  unfold finalized_lines in Hlines.
  apply list_elem_of_omap in Hlines as (response & Hresp & Hfinal).
  unfold finalized_transcript in Hfinal.
  destruct (results response) as [|result results'] eqn:Hresults; [done|].
  destruct (alternatives result) as [|alt alternatives'] eqn:Halts; [done|].
  destruct (is_final result) eqn:Hfin; [|done]. simpl in Hfinal.
  destruct (str_truthy (str_strip (transcript alt))) eqn:Htruthy; [|done].
  injection Hfinal as <-.
  exists response, result, results', alt, alternatives'.
  repeat split; try done.
  unfold str_truthy in Htruthy. apply negb_true_iff in Htruthy.
  by apply bool_decide_eq_false in Htruthy.
Qed.

Lemma commentary_lines_are_final_transcripts_witness :
  let responses :=
    [mkResponse [mkSpeechResult [mkAlternative "Knight takes"] false];
     mkResponse [mkSpeechResult [mkAlternative "Knight takes e5"] true]] in
  "Knight takes e5" ∈ _run_transcription_sync (fun s => s) [] responses
  /\ exists response, response ∈ responses.
Proof.
  intros responses.
  assert (Hin : "Knight takes e5"
                ∈ _run_transcription_sync (fun s => s) [] responses).
  { vm_compute. apply list_elem_of_here. }
  split; [exact Hin|].
  destruct (commentary_lines_are_final_transcripts (fun s => s) responses
              "Knight takes e5" Hin) as (response & _ & _ & _ & _ & Hr & _).
  by exists response.
Defined.

(** ** Audio device, typed messages, session responses, shutdown *)

Lemma append_cons (a : Ascii.ascii) (s1 s2 : string) :
  String.append (String a s1) s2 = String a (String.append s1 s2).
Proof. reflexivity. Qed.

Lemma append_empty (s : string) : String.append EmptyString s = s.
Proof. reflexivity. Qed.

Lemma prefix_spec (needle haystack : string) :
  String.prefix needle haystack = true
  <-> exists post, haystack = String.append needle post.
Proof.
  revert haystack. induction needle as [|a needle IH]; intros haystack.
  - destruct haystack; simpl; split; eauto.
  - destruct haystack as [|b haystack]; simpl.
    + split; [done|]. intros [post Hpost]. by rewrite append_cons in Hpost.
    + destruct (Ascii.ascii_dec a b) as [->|Hne].
      * rewrite IH. split; intros [post Hpost]; exists post;
          rewrite append_cons in *; congruence.
      * split; [done|]. intros [post Hpost].
        rewrite append_cons in Hpost. congruence.
Qed.

(** [str_in] is the substring test. *)
Lemma str_in_spec (needle haystack : string) :
  str_in needle haystack = true
  <-> exists pre post,
        haystack = String.append pre (String.append needle post).
Proof.
  induction haystack as [|b haystack IH]; cbn [str_in].
  - rewrite orb_false_r, prefix_spec. split.
    + intros [post Hpost]. by exists EmptyString, post.
    + intros ([|c pre] & post & Hpost).
      * rewrite append_empty in Hpost. by exists post.
      * by rewrite append_cons in Hpost.
  - rewrite orb_true_iff, IH, prefix_spec. split.
    + intros [[post Hpost]|(pre & post & Hpost)].
      * by exists EmptyString, post.
      * exists (String b pre), post. by rewrite append_cons, Hpost.
    + intros ([|c pre] & post & Hpost).
      * left. rewrite append_empty in Hpost. by exists post.
      * right. exists pre, post. rewrite append_cons in Hpost. congruence.
Qed.

(** X24: [find_pulse_device] returns the first listed device whose
    lower-cased name contains "pulse" and that has input channels, every
    device listed before it failing that test; when no listed device
    passes, it returns the default input device, whatever that is. *)
Theorem find_pulse_device_first_match (str_lower : string -> string)
    (devices : list DeviceInfo) (default_input : DeviceInfo) :
  let found := find_pulse_device str_lower devices default_input in
  (exists before after pre post,
     devices = before ++ found :: after
     /\ Forall (fun info => is_pulse_input str_lower info = false) before
     /\ str_lower (dev_name found)
        = String.append pre (String.append "pulse" post)
     /\ 0 < maxInputChannels found)
  \/ (found = default_input
      /\ Forall (fun info => is_pulse_input str_lower info = false) devices).
Proof.
  induction devices as [|info devices IH]; simpl.
  - right. by split.
  - destruct (is_pulse_input str_lower info) eqn:Hinfo.
    + left. unfold is_pulse_input in Hinfo.
      apply andb_true_iff in Hinfo as [Hname Hchannels].
      apply str_in_spec in Hname as (pre & post & Hname).
      apply bool_decide_eq_true in Hchannels.
      by exists [], devices, pre, post.
    + destruct IH as [(before & after & pre & post & Hd & Hb & Hn & Hc)
                     |[Hdefault Hnone]].
      * left. exists (info :: before), after, pre, post.
        split; [by rewrite Hd at 1|]. split; [by constructor|done].
      * right. split; [done|by constructor].
Qed.

(** X25: what [send_text] sends.  No message handed to the session is
    ever empty (an empty line is sent as "."), there is at most one message
    per typed line, and once a line that lower-cases to "q" is typed, after
    lines that were all sent, exactly those lines were sent and the loop
    ends normally: the quit line and everything after it are not sent. *)
Theorem send_text_messages (str_lower : string -> string)
    (typed : list (string * res unit)) :
  let out := send_text str_lower typed in
  Forall (fun message => message <> "") out.2
  /\ (length out.2 <= length typed)%nat
  /\ (forall before text answer after,
        typed = before ++ (text, answer) :: after ->
        str_lower text = "q" ->
        Forall (fun line => str_lower line.1 <> "q" /\ line.2 = Ret tt)
          before ->
        out = (Ret tt,
               map (fun line => if str_truthy line.1 then line.1 else ".")
                 before)).
Proof.
  cbv zeta. split; [|split].
  - induction typed as [|[text answer] typed IH]; simpl; [done|].
    case_bool_decide; [done|].
    assert (Hmessage : (if str_truthy text then text else ".") <> "").
    { destruct (str_truthy text) eqn:Htruthy; [|done].
      unfold str_truthy in Htruthy. apply negb_true_iff in Htruthy.
      by apply bool_decide_eq_false in Htruthy. }
    destruct answer as [[]|e]; simpl.
    + destruct (send_text str_lower typed) as [outcome sent]. simpl in *.
      by constructor.
    + by repeat constructor.
  - induction typed as [|[text answer] typed IH]; simpl; [done|].
    case_bool_decide; simpl; [lia|].
    destruct answer as [[]|e]; simpl.
    + destruct (send_text str_lower typed) as [outcome sent]. simpl in *. lia.
    + lia.
  - intros before text answer after -> Hquit.
    induction before as [|[line sent] before IH]; intros Hbefore; simpl.
    + by rewrite bool_decide_true.
    + apply Forall_cons in Hbefore as [[Hline Hsent] Hbefore].
      simpl in Hline, Hsent. subst sent.
      rewrite bool_decide_false by done. by rewrite (IH Hbefore).
Qed.

Lemma send_text_messages_witness :
  send_text (fun s => if bool_decide (s = "Q") then "q" else s)
    [("e4?", Ret tt); ("", Ret tt); ("Q", Ret tt); ("more", Ret tt)]
  = (Ret tt, ["e4?"; "."]).
Proof.
  destruct (send_text_messages
              (fun s => if bool_decide (s = "Q") then "q" else s)
              [("e4?", Ret tt); ("", Ret tt); ("Q", Ret tt); ("more", Ret tt)])
    as (_ & _ & Hquit).
  apply (Hquit [("e4?", Ret tt); ("", Ret tt)] "Q" (Ret tt) [("more", Ret tt)]);
    [reflexivity|reflexivity|].
  repeat constructor; discriminate.
Defined.

(** X26: the audio of the dialogue session is queued in arrival order.
    When the responses of a turn are all handled, what [receive_audio] has
    put on the queue is the audio chunks of the responses that carry some,
    in order, after what was there; responses with empty or no audio, text
    and tool calls add nothing and reorder nothing. *)
Theorem audio_is_queued_in_arrival_order (turn : list LiveResponse)
    (audio_in_queue queued : list string) (w : World) :
  (receive_responses turn audio_in_queue w).1 = Ret queued ->
  queued = audio_in_queue ++ omap (fun r => py_truthy (resp_data r)) turn.
Proof.
  revert audio_in_queue w.
  induction turn as [|response turn IH]; intros audio_in_queue w; simpl.
  - rewrite app_nil_r. by intros [= <-].
  - unfold bind at 1, receive_response.
    destruct (py_truthy (resp_data response)) as [data|]; simpl.
    + intros Hrest. rewrite (IH _ _ Hrest). by rewrite <- app_assoc.
    + destruct (py_truthy (resp_text response)); simpl; [by apply IH|].
      destruct (resp_tool_call response) as [[send calls]|]; simpl;
        [|by apply IH].
      unfold bind at 1.
      destruct (handle_tool_call send calls w) as [[[]|e] w1]; simpl;
        [|done].
      by apply IH.
Qed.

Lemma audio_is_queued_in_arrival_order_witness :
  let turn := [mkLiveResponse (Some "chunk-1") None None;
               mkLiveResponse (Some "") (Some "Nf3 is best") None;
               mkLiveResponse (Some "chunk-2") None None] in
  (receive_responses turn ["chunk-0"] (sample_world None false)).1
  = Ret ["chunk-0"; "chunk-1"; "chunk-2"]
  /\ ["chunk-0"; "chunk-1"; "chunk-2"]
     = ["chunk-0"] ++ omap (fun r => py_truthy (resp_data r)) turn.
Proof.
  intros turn.
  assert (Hret : (receive_responses turn ["chunk-0"]
                    (sample_world None false)).1
                 = Ret ["chunk-0"; "chunk-1"; "chunk-2"])
    by (vm_compute; reflexivity).
  split; [exact Hret|].
  exact (audio_is_queued_in_arrival_order turn ["chunk-0"] _ _ Hret).
Defined.

(** X27: audio and text come before tool calls.  In a turn whose every
    response carries audio or text, no tool call is handled, even when a
    response carries one: the world is untouched and nothing is answered
    to the session; the audio is queued, and the whole turn ends with the
    queue emptied. *)
Theorem tool_call_ignored_beside_audio_or_text (turn : list LiveResponse)
    (audio_in_queue : list string) (w : World) :
  Forall (fun r => py_truthy (resp_data r) <> None
                   \/ py_truthy (resp_text r) <> None) turn ->
  receive_responses turn audio_in_queue w
  = (Ret (audio_in_queue ++ omap (fun r => py_truthy (resp_data r)) turn), w)
  /\ receive_turn turn audio_in_queue w = (Ret [], w).
Proof.
  intros Hturn.
  assert (Hresponses : forall q : list string,
            receive_responses turn q w
            = (Ret (q ++ omap (fun r => py_truthy (resp_data r)) turn), w)).
  { induction Hturn as [|response turn Hresponse Hturn IH]; intros q; simpl.
    - by rewrite app_nil_r.
    - unfold bind at 1, receive_response.
      destruct (py_truthy (resp_data response)) as [data|]; simpl.
      + rewrite IH. by rewrite <- app_assoc.
      + destruct (py_truthy (resp_text response)); simpl; [by apply IH|].
        by destruct Hresponse. }
  split; [by apply Hresponses|].
  unfold receive_turn, bind. by rewrite Hresponses.
Qed.

Lemma tool_call_ignored_beside_audio_or_text_witness :
  let env := sample_env (Ret None) (Ret None) (Ret START_FEN)
               (Ret (mkConsensusResult None None)) (Ret sample_analyses) in
  let turn :=
    [mkLiveResponse (Some "chunk-1") None
       (Some (Ret tt, [(env, mkFunctionCall "stop_watching_mode" None)]))] in
  receive_responses turn [] (sample_world None false)
  = (Ret ["chunk-1"], sample_world None false).
Proof.
  intros env turn.
  destruct (tool_call_ignored_beside_audio_or_text turn []
              (sample_world None false)) as [Hqueue _].
  - constructor; [|constructor]. left. vm_compute. discriminate.
  - exact Hqueue.
Defined.

(** X28: shutting down.  [run] never lets an [Exception] of the pipeline
    escape, and its cleanup is attempted whatever the pipeline did: the
    engine pool is cleaned up first, always.  The capture device is
    released exactly when [shared_cap] is set and the engine pool's cleanup
    returned: a cleanup call that raises ends the cleanup, skips the calls
    after it and becomes the outcome of [run]. *)
Theorem run_cleanup_order (pipeline : res unit) (held : Resources)
    (cenv : CleanupEnv) :
  let out := run_companion pipeline held cenv in
  out.2 = (cleanup held cenv).2
  /\ head out.2 = Some EnginePoolCleanup
  /\ (CapRelease ∈ out.2
      <-> shared_cap held = true /\ engine_pool_cleanup cenv = Ret tt)
  /\ (forall e : exn,
        engine_pool_cleanup cenv = Raise e ->
        out = (Raise e, [EnginePoolCleanup]))
  /\ ((cleanup held cenv).1 = Ret tt ->
      out.1 = match pipeline with
              | Raise BaseOnly => Raise BaseOnly
              | _ => Ret tt
              end).
Proof.
  unfold run_companion, cleanup, cleanup_step. cbv zeta.
  destruct held as [cap mic audio].
  destruct cenv as [engine release close terminate]. simpl.
  split; [done|]. split; [by destruct engine as [[]|]|]. split; [|split].
  - destruct engine as [[]|e]; simpl.
    + destruct cap; simpl.
      * split; [done|]. intros _.
        destruct release as [[]|]; simpl;
          apply list_elem_of_further, list_elem_of_here.
      * split; [|by intros [? _]]. intros Hin.
        destruct mic, audio, close as [[]|], terminate as [[]|]; simpl in Hin;
          repeat (apply elem_of_cons in Hin as [Hin|Hin]; [done|]);
          by apply elem_of_nil in Hin.
    + split; [|by intros [_ ?]]. intros Hin.
      apply elem_of_cons in Hin as [Hin|Hin]; [done|].
      by apply elem_of_nil in Hin.
  - by intros e ->.
  - intros Hclean. rewrite Hclean. by destruct pipeline as [[]|[]].
Qed.

Lemma run_cleanup_order_witness :
  run_companion (Raise OtherException) (mkResources true false false)
    (mkCleanupEnv (Raise OtherException) (Ret tt) (Ret tt) (Ret tt))
  = (Raise OtherException, [EnginePoolCleanup]).
Proof.
  destruct (run_cleanup_order (Raise OtherException)
              (mkResources true false false)
              (mkCleanupEnv (Raise OtherException) (Ret tt) (Ret tt) (Ret tt)))
    as (_ & _ & _ & Hfail & _).
  by apply (Hfail OtherException).
Defined.
